(** * CRABClient.UserUtilities: a shallow embedding and its properties

    The module [src/python/CRABClient/UserUtilities.py] is glue code over
    external processes.  Its functions are embedded as computations in a
    state-and-exception monad over an explicit [World] (environment
    variables, files, console log level, emitted log records).  Everything
    the module imports from elsewhere (the command runner, [json.loads],
    [int], the [LumiList] constructor, the status command object, a few
    constants) is a field of the class [Externals], so every statement holds
    for all behaviours of those collaborators. *)

From Stdlib Require Import ZArith String Ascii List Bool Lia DecimalString.
From stdpp Require Import base option gmap strings.
Import ListNotations.

Local Open Scope string_scope.
Local Open Scope Z_scope.
Set Warnings "-register-all".

(** ** Python values, exceptions and results *)

Module Py.

(** The values [json.loads] produces, and [None].  JSON numbers are kept to
    integers: the fields read by this module are counters and flags. *)
Inductive pyval : Type :=
| PNone
| PBool (b : bool)
| PInt (n : Z)
| PStr (s : string)
| PList (xs : list pyval)
| PDict (kvs : list (string * pyval)).

(** The exceptions that can leave the functions of the module. *)
Inductive exn : Type :=
| ClientException (msg : string)
| UsernameException (msg : string)
| KeyError
| IndexError
| TypeError
| ValueError
| AttributeError
| OSError
| IOError
| UnicodeDecodeError.

Inductive result (A : Type) : Type :=
| Return (a : A)
| Raise (e : exn).
Arguments Return {A} a.
Arguments Raise {A} e.

Definition NL : string := String "010"%char EmptyString.

(** [bool(v)]: the truth value Python gives to [v] in a condition. *)
Definition truthy (v : pyval) : bool :=
  match v with
  | PNone => false
  | PBool b => b
  | PInt n => negb (n =? 0)
  | PStr s => negb (String.eqb s "")
  | PList xs => match xs with [] => false | _ => true end
  | PDict kvs => match kvs with [] => false | _ => true end
  end.

(** [not s] on a string. *)
Definition str_empty (s : string) : bool := String.eqb s "".

(** Lookup in a dictionary held as an association list (first binding). *)
Fixpoint dict_get (kvs : list (string * pyval)) (k : string) : option pyval :=
  match kvs with
  | [] => None
  | (k', v) :: rest => if String.eqb k' k then Some v else dict_get rest k
  end.

(** [v[k]] with a string key [k]. *)
Definition getitem_str (v : pyval) (k : string) : result pyval :=
  match v with
  | PDict kvs =>
      match dict_get kvs k with
      | Some x => Return x
      | None => Raise KeyError
      end
  | _ => Raise TypeError
  end.

Fixpoint chars (s : string) : list pyval :=
  match s with
  | EmptyString => []
  | String c s' => PStr (String c EmptyString) :: chars s'
  end.

(** Position [i] of a sequence, counting from the end when [i] is negative. *)
Definition seq_at {A : Type} (xs : list A) (i : Z) : option A :=
  let n := Z.of_nat (List.length xs) in
  let j := if i <? 0 then i + n else i in
  if (0 <=? j) && (j <? n) then nth_error xs (Z.to_nat j) else None.

(** [v[i]] with an integer index [i].  The keys of a JSON object are
    strings, so an integer is never a key of a [PDict]. *)
Definition getitem_int (v : pyval) (i : Z) : result pyval :=
  match v with
  | PList xs =>
      match seq_at xs i with
      | Some x => Return x
      | None => Raise IndexError
      end
  | PStr s =>
      match seq_at (chars s) i with
      | Some x => Return x
      | None => Raise IndexError
      end
  | PDict _ => Raise KeyError
  | _ => Raise TypeError
  end.

(** [for x in v]: the elements the loop visits. *)
Definition iter (v : pyval) : result (list pyval) :=
  match v with
  | PList xs => Return xs
  | PDict kvs => Return (map (fun kv => PStr (fst kv)) kvs)
  | PStr s => Return (chars s)
  | _ => Raise TypeError
  end.

(** [v == s] for a string [s]. *)
Definition eq_str (v : pyval) (s : string) : bool :=
  match v with
  | PStr s' => String.eqb s' s
  | _ => false
  end.

Fixpoint find_index {A : Type} (p : A -> bool) (xs : list A) : option nat :=
  match xs with
  | [] => None
  | x :: rest => if p x then Some O else option_map S (find_index p rest)
  end.

(** [v.index(name)]: first position in a list, first occurrence in a
    string; the other values have no such method. *)
Definition index (v : pyval) (name : string) : result nat :=
  match v with
  | PList xs =>
      match find_index (fun x => eq_str x name) xs with
      | Some i => Return i
      | None => Raise ValueError
      end
  | PStr s =>
      match String.index 0 name s with
      | Some i => Return i
      | None => Raise ValueError
      end
  | _ => Raise AttributeError
  end.

(** [s.replace('\n', '\n' + pad)]. *)
Fixpoint indent (pad : string) (s : string) : string :=
  match s with
  | EmptyString => EmptyString
  | String c s' =>
      if Ascii.eqb c "010"%char
      then String c (pad ++ indent pad s')
      else String c (indent pad s')
  end.

(** [str(n)] for an integer. *)
Definition str_of_Z (n : Z) : string := NilZero.string_of_int (Z.to_int n).

(** [str(x)] for an optional string argument: [None] prints as ["None"]. *)
Definition str_of_opt (o : option string) : string :=
  match o with
  | Some s => s
  | None => "None"
  end.

(** [part in whole] on strings. *)
Definition includes (part whole : string) : Prop :=
  exists pre post, whole = pre ++ part ++ post.

(** The same test as a computation. *)
Fixpoint occurs (part whole : string) : bool :=
  String.prefix part whole ||
  match whole with
  | EmptyString => false
  | String _ rest => occurs part rest
  end.

End Py.
Import Py.

(** ** The world the functions act on *)

(** Loggers are told apart by name. *)
Definition Logger : Type := string.

Definition DEBUG : Z := 10.
Definition ERROR : Z := 40.

(** [files] maps a path to the content of the file there.  [crab3_all]
    holds the levels of the handlers of the logger ['CRAB3.all'] when that
    logger is registered.  [logged] are the records sent to the loggers.
    [Outside] stands for whatever else the external programs depend on
    (network, catalog contents, clock).  Two fields are ghosts: [calls],
    the command lines handed to [execute_command], oldest first; and
    [level_set_after], the number of records that had been logged when the
    console level was last set, which tells the records logged under the
    present level from those logged before it. *)
Record World (Outside : Type) : Type := mkWorld {
  environ : gmap string string;
  files : gmap string string;
  CONSOLE_LOGLEVEL : Z;
  crab3_all : option (list Z);
  logged : list (Logger * Z * string);
  calls : list string;
  level_set_after : nat;
  outside : Outside
}.
Arguments mkWorld {Outside}.
Arguments environ {Outside}.
Arguments files {Outside}.
Arguments CONSOLE_LOGLEVEL {Outside}.
Arguments crab3_all {Outside}.
Arguments logged {Outside}.
Arguments calls {Outside}.
Arguments level_set_after {Outside}.
Arguments outside {Outside}.

Section Setters.
Context {O : Type}.

Definition set_files (fs : gmap string string) (w : World O) : World O :=
  mkWorld (environ w) fs (CONSOLE_LOGLEVEL w) (crab3_all w) (logged w) (calls w)
    (level_set_after w) (outside w).

Definition set_levels (lvl : Z) (hs : option (list Z)) (w : World O) : World O :=
  mkWorld (environ w) (files w) lvl hs (logged w) (calls w)
    (List.length (logged w)) (outside w).

Definition set_logged (l : list (Logger * Z * string)) (w : World O) : World O :=
  mkWorld (environ w) (files w) (CONSOLE_LOGLEVEL w) (crab3_all w) l (calls w)
    (level_set_after w) (outside w).

Definition set_calls (c : list string) (w : World O) : World O :=
  mkWorld (environ w) (files w) (CONSOLE_LOGLEVEL w) (crab3_all w) (logged w) c
    (level_set_after w) (outside w).

End Setters.

(** What [execute_command] hands back: stdout, stderr, return code. *)
Definition Completed : Type := (string * string * Z)%type.

(** Everything the module takes from outside its own file.  The external
    programs and the status command may change the world in any way. *)
Class Externals : Type := {
  Outside : Type;
  (** the object built by [CRABClient.Commands.status.status(logger)] *)
  StatusCmd : Type;
  (** the interval list of [FWCore.PythonUtilities.LumiList] and its
      constructor [LumiList(lumis=...)] *)
  LumiListT : Type;
  LumiList : list (pyval * pyval) -> LumiListT;
  (** running a command line through the shell, as
      [ClientUtilities.execute_command] does *)
  subprocess : string -> option Logger -> World Outside -> Completed * World Outside;
  (** [json.loads]; [None] when it raises on malformed text *)
  json_loads : string -> option pyval;
  (** [int(s)]; [None] when it raises *)
  python_int : string -> option Z;
  (** what [f.read()] gives for a file opened in text mode that holds
      these bytes (decoding, newline translation); [None] when the decoding
      raises *)
  read_text : string -> option string;
  (** [str(v)] of a value that is not a string *)
  python_repr : pyval -> string;
  (** [ClientUtilities.getUserProxy]: the proxy path, or nothing *)
  getUserProxy : World Outside -> option string * World Outside;
  (** constants of [ClientUtilities] *)
  LOGLEVEL_MUTE : Z;
  colors_BOLD : string;
  colors_NORMAL : string;
  (** [getattr(mod, 'status')(logger)] and [cmdobj.__call__()] *)
  status_new : Logger -> World Outside -> result StatusCmd * World Outside;
  status_call : StatusCmd -> World Outside -> result pyval * World Outside
}.

Abbreviation W := (World Outside).

Section Embedding.
Context `{X : Externals}.

(** *** State and exceptions *)

Definition M (A : Type) : Type := W -> result A * W.

Definition ret {A : Type} (a : A) : M A := fun w => (Return a, w).

Definition raise {A : Type} (e : exn) : M A := fun w => (Raise e, w).

Definition bind {A B : Type} (m : M A) (k : A -> M B) : M B :=
  fun w =>
    match m w with
    | (Return a, w') => k a w'
    | (Raise e, w') => (Raise e, w')
    end.

Definition lift {A : Type} (r : result A) : M A := fun w => (r, w).

(** A [for] loop whose body updates the local [acc]. *)
Fixpoint for_each {A S : Type} (xs : list A) (body : S -> A -> M S) (acc : S) : M S :=
  match xs with
  | [] => ret acc
  | x :: rest => bind (body acc x) (for_each rest body)
  end.

End Embedding.

Declare Scope py_scope.
Delimit Scope py_scope with py.
Notation "x <- c ;; k" := (bind c (fun x => k))
  (at level 100, c at next level, right associativity) : py_scope.
Notation "c ;; k" := (bind c (fun _ => k))
  (at level 100, right associativity) : py_scope.

(** ** The functions of the module *)

Section Functions.
Context `{X : Externals}.
Local Open Scope py_scope.

Definition DQ : string := String "034"%char EmptyString.

(** [ClientUtilities.execute_command]: runs the command line and hands back
    its streams and return code.  The wrapper only adds the ghost record of
    the call. *)
Definition execute_command (command : string) (logger : option Logger) : M Completed :=
  fun w =>
    let (out, w') := subprocess command logger w in
    (Return out, set_calls (calls w ++ [command])%list w').

(** [os.environ[name] if name in os.environ else dflt] *)
Definition environ_or (name dflt : string) : M string :=
  fun w => (Return (default dflt (environ w !! name)), w).

(** [os.unlink(path)] *)
Definition os_unlink (path : option string) : M unit :=
  fun w =>
    match path with
    | None => (Raise TypeError, w)
    | Some p =>
        match files w !! p with
        | Some _ => (Return tt, set_files (delete p (files w)) w)
        | None => (Raise OSError, w)
        end
    end.

(** [with open(path) as f: f.read()]: the file is opened in text mode. *)
Definition read_file (path : option string) : M string :=
  fun w =>
    match path with
    | None => (Raise TypeError, w)
    | Some p =>
        match files w !! p with
        | Some bytes =>
            match read_text bytes with
            | Some text => (Return text, w)
            | None => (Raise UnicodeDecodeError, w)
            end
        | None => (Raise IOError, w)
        end
    end.

(** [logger.debug(msg)], [logger.error(msg)]: the request is recorded. *)
Definition log_to (logger : Logger) (lvl : Z) (msg : string) : M unit :=
  fun w => (Return tt, set_logged (logged w ++ [(logger, lvl, msg)])%list w).

Definition log_if (logger : option Logger) (lvl : Z) (msg : string) : M unit :=
  match logger with
  | Some l => log_to l lvl msg
  | None => ret tt
  end.

(** [not x] for an optional string. *)
Definition opt_falsy (o : option string) : bool :=
  match o with
  | None => true
  | Some s => str_empty s
  end.

(** [rc or not stdout] *)
Definition failed (rc : Z) (stdout : string) : bool :=
  negb (rc =? 0) || str_empty stdout.

(** [str(v)] as [%s] prints a value. *)
Definition str_of (v : pyval) : string :=
  match v with
  | PStr s => s
  | _ => python_repr v
  end.

(** *** getUsernameFromCRIC *)

Definition cric_queryCmd (capath proxyFileName : string) : string :=
  "curl -sS --capath " ++ capath ++ " --cert " ++ proxyFileName ++ " --key " ++ proxyFileName
  ++ " 'https://cms-cric.cern.ch/api/accounts/user/query/?json&preset=whoami'".

Definition cric_parseCmd (stdout : string) : string :=
  "echo '" ++ stdout ++ "' | tr ':,' '" ++ NL ++ "' | grep -A1 login | tail -1 | tr -d ' "
  ++ NL ++ DQ ++ "'".

Definition cric_contact_msg (queryCmd stdout stderr : string) : string :=
  "Error contacting CRIC."
  ++ NL ++ "Details follow:"
  ++ NL ++ "  Executed command: " ++ queryCmd
  ++ NL ++ "    Stdout:" ++ NL ++ "      " ++ indent "      " stdout
  ++ NL ++ "    Stderr:" ++ NL ++ "      " ++ indent "      " stderr.

Definition cric_parse_msg (queryCmd stdout username : string) : string :=
  "Failed to retrieve username from CRIC."
  ++ NL ++ "Details follow:"
  ++ NL ++ "  Executed command: " ++ queryCmd
  ++ NL ++ "    Stdout:" ++ NL ++ "      " ++ indent "      " stdout
  ++ NL ++ "    Parsed username: " ++ username
  ++ NL ++ colors_BOLD ++ "Note" ++ colors_NORMAL
  ++ ": Make sure you have the correct certificate mapped in your CERN account page"
  ++ " (you can check what is the certificate you currently have mapped"
  ++ " by looking at CERN Certificatiom Authority page."
  ++ NL ++ "For instructions on how to map a certificate, see "
  ++ NL ++ "  https://twiki.cern.ch/twiki/bin/view/CMSPublic/UsernameForCRAB#Adding_your_DN_to_your_profile".

Definition getUsernameFromCRIC (proxyFileName : option string) : M string :=
  capath <- environ_or "X509_CERT_DIR" "/etc/grid-security/certificates" ;;
  proxyFileName <- (if opt_falsy proxyFileName
                    then (fun w => let (p, w') := getUserProxy w in (Return p, w'))
                    else ret proxyFileName) ;;
  if opt_falsy proxyFileName then raise (UsernameException "Can't find user proxy file")
  else
    let queryCmd := cric_queryCmd capath (str_of_opt proxyFileName) in
    out <- execute_command queryCmd None ;;
    let '(stdout, stderr, rc) := out in
    if failed rc stdout then raise (UsernameException (cric_contact_msg queryCmd stdout stderr))
    else
      let parseCmd := cric_parseCmd stdout in
      out <- execute_command parseCmd None ;;
      let '(username, stderr, rc) := out in
      if String.eqb username "null" || str_empty username
      then raise (UsernameException (cric_parse_msg queryCmd stdout username))
      else ret username.

(** *** curlGetFileFromURL *)

Definition downloadCommand (capath url : string) (filename proxyfilename : option string) : string :=
  "curl -sS --capath " ++ capath ++ " --cert " ++ str_of_opt proxyfilename
  ++ " --key " ++ str_of_opt proxyfilename ++ " -o " ++ str_of_opt filename
  ++ " -w %" ++ DQ ++ "{http_code}" ++ DQ
  ++ " " ++ DQ ++ url ++ DQ.

Definition curl_summary (rc : Z) (stdout stderr errorDetails : string) : string :=
  "exitcode: " ++ str_of_Z rc ++ NL ++ "stdout: " ++ stdout ++ NL ++ "stderr: " ++ stderr
  ++ NL ++ "error details: " ++ errorDetails.

Definition curlGetFileFromURL (url : string) (filename proxyfilename : option string)
    (logger : option Logger) : M Z :=
  capath <- environ_or "X509_CERT_DIR" "/etc/grid-security/certificates" ;;
  let downloadCommand := downloadCommand capath url filename proxyfilename in
  log_if logger DEBUG ("Will execute:" ++ NL ++ downloadCommand) ;;
  out <- execute_command downloadCommand logger ;;
  let '(stdout, stderr, rc) := out in
  res <- (if negb (rc =? 0)
          then (os_unlink filename ;; ret (503, ""))
          else
            httpCode <- lift (match python_int stdout with
                              | Some n => Return n
                              | None => Raise ValueError
                              end) ;;
            if negb (httpCode =? 200)
            then (errorDetails <- read_file filename ;;
                  os_unlink filename ;;
                  ret (httpCode, errorDetails))
            else ret (httpCode, "")) ;;
  let '(httpCode, errorDetails) := res in
  log_if logger DEBUG (curl_summary rc stdout stderr errorDetails) ;;
  ret httpCode.

(** *** getLumiListInValidFiles *)

(** The message built by the inner helper [complain]. *)
Definition complain_msg (cmd stdout stderr : string) (returncode : Z) : string :=
  let msg := "Failed executing " ++ cmd ++ ". Exitcode is " ++ str_of_Z returncode in
  let msg := if str_empty stdout then msg
             else msg ++ NL ++ "  Stdout:" ++ NL ++ "    " ++ indent "    " stdout in
  let msg := if str_empty stderr then msg
             else msg ++ NL ++ "  Stderr:" ++ NL ++ "    " ++ indent "    " stderr in
  msg.

Definition complain {A : Type} (cmd stdout stderr : string) (returncode : Z) : M A :=
  raise (ClientException (complain_msg cmd stdout stderr returncode)).

(** [dasCmd % query], for an instance selector without a [%] of its own
    (["phys03"], ["global"], ...): the template then holds the single
    conversion [%s].  With a [%] in [dbsurl] the formatting of the source
    raises or rewrites the [%]; the statements about
    [getLumiListInValidFiles] are made under [no_conversion dbsurl]. *)
Definition dasCmd (dbsurl query : string) : string :=
  let instance := "prod/" ++ dbsurl in
  "dasgoclient --query " ++ " '" ++ query ++ " instance=" ++ instance ++ "' --json".

Definition loads (stdout : string) : M pyval :=
  lift (match json_loads stdout with
        | Some v => Return v
        | None => Raise ValueError
        end).

(** Body of the loop over the records of the file query. *)
Definition file_step (validFiles : list pyval) (record : pyval) : M (list pyval) :=
  files <- lift (getitem_str record "file") ;;
  file <- lift (getitem_int files 0) ;;
  flag <- lift (getitem_str file "is_file_valid") ;;
  if truthy flag
  then (name <- lift (getitem_str file "name") ;; ret (validFiles ++ [name])%list)
  else ret validFiles.

(** Body of the loop over the records of one lumi query. *)
Definition lumi_step (runLumiPairs : list (pyval * pyval)) (lumiInfo : pyval)
    : M (list (pyval * pyval)) :=
  lumis <- lift (getitem_str lumiInfo "lumi") ;;
  lumiDict <- lift (getitem_int lumis 0) ;;
  run <- lift (getitem_str lumiDict "run_number") ;;
  lumi <- lift (getitem_str lumiDict "lumi_section_num") ;;
  ret (runLumiPairs ++ [(run, lumi)])%list.

Definition fileCmd (dataset dbsurl : string) : string :=
  dasCmd dbsurl ("file dataset=" ++ dataset).

Definition lumiCmd (dbsurl : string) (file : pyval) : string :=
  dasCmd dbsurl ("lumi file=" ++ str_of file).

(** Body of the loop over the valid files. *)
Definition file_lumis (dbsurl : string) (runLumiPairs : list (pyval * pyval)) (file : pyval)
    : M (list (pyval * pyval)) :=
  let cmd := lumiCmd dbsurl file in
  out <- execute_command cmd None ;;
  let '(stdout, stderr, returncode) := out in
  if failed returncode stdout then complain cmd stdout stderr returncode
  else
    result <- loads stdout ;;
    records <- lift (iter result) ;;
    for_each records lumi_step runLumiPairs.

Definition getLumiListInValidFiles (dataset dbsurl : string) : M LumiListT :=
  let cmd := fileCmd dataset dbsurl in
  out <- execute_command cmd None ;;
  let '(stdout, stderr, returncode) := out in
  validFiles <- (if failed returncode stdout then complain cmd stdout stderr returncode
                 else
                   result <- loads stdout ;;
                   records <- lift (iter result) ;;
                   for_each records file_step []) ;;
  runLumiPairs <- for_each validFiles (file_lumis dbsurl) [] ;;
  ret (LumiList runLumiPairs).

(** *** Logging accessors *)

Definition getConsoleLogLevel : M Z :=
  fun w => (Return (CONSOLE_LOGLEVEL w), w).

(** Modelled from the spec: [ClientUtilities.setConsoleLogLevelVar] is not
    part of this file; the console level is process-wide state "mutated by
    setConsoleLogLevel, read by getConsoleLogLevel", so the helper stores
    its argument in [CONSOLE_LOGLEVEL]. *)
Definition setConsoleLogLevelVar (lvl : Z) : M unit :=
  fun w => (Return tt, set_levels lvl (crab3_all w) w).

Definition setConsoleLogLevel (lvl : Z) : M unit :=
  setConsoleLogLevelVar lvl ;;
  (fun w =>
     match crab3_all w with
     | Some hs => (Return tt, set_levels (CONSOLE_LOGLEVEL w) (Some (map (fun _ => lvl) hs)) w)
     | None => (Return tt, w)
     end).

(** *** getMutedStatusInfo *)

Definition status_failure_text (statusFailureMsg : pyval) : string :=
  "Error while getting status information. Got:" ++ NL ++ str_of statusFailureMsg ++ " ".

Definition getMutedStatusInfo (logger : Logger) : M pyval :=
  cmdobj <- status_new logger ;;
  loglevel <- getConsoleLogLevel ;;
  setConsoleLogLevel LOGLEVEL_MUTE ;;
  statusDict <- status_call cmdobj ;;
  setConsoleLogLevel loglevel ;;
  statusFailureMsg <- lift (getitem_str statusDict "statusFailureMsg") ;;
  (if truthy statusFailureMsg
   then log_to logger ERROR (status_failure_text statusFailureMsg)
   else ret tt) ;;
  ret statusDict.

(** *** getColumn *)

Definition and_then {A B : Type} (r : result A) (k : A -> result B) : result B :=
  match r with
  | Return a => k a
  | Raise e => Raise e
  end.

Definition getColumn (dictresult : pyval) (columnName : string) : result pyval :=
  and_then (getitem_str dictresult "desc") (fun desc =>
  and_then (getitem_str desc "columns") (fun columns =>
  and_then (index columns columnName) (fun columnIndex =>
  and_then (getitem_str dictresult "result") (fun results =>
  and_then (getitem_int results (Z.of_nat columnIndex)) (fun value =>
  if eq_str value "None" then Return PNone else Return value))))).

End Functions.

(** ** Vocabulary of the statements *)

Section Vocabulary.
Context `{X : Externals}.

(** [i] is the first position of the column [name]. *)
Definition first_position (name : string) (cols : list pyval) (i : nat) : Prop :=
  nth_error cols i = Some (PStr name) /\
  forall j, (j < i)%nat -> nth_error cols j <> Some (PStr name).

(** The shape the file loop reads: the list under ['file'] starts with a
    dictionary carrying the validity flag [flag], and carrying [name] under
    ['name'] when the flag holds. *)
Definition file_record (r flag name : pyval) : Prop :=
  exists kvs f rest,
    r = PDict kvs /\
    dict_get kvs "file" = Some (PList (PDict f :: rest)) /\
    dict_get f "is_file_valid" = Some flag /\
    (truthy flag = true -> dict_get f "name" = Some name).

(** The shape the lumi loop reads: the list under ['lumi'] starts with a
    dictionary carrying the run number and the lumi-section number. *)
Definition lumi_record (r run lumi : pyval) : Prop :=
  exists kvs l rest,
    r = PDict kvs /\
    dict_get kvs "lumi" = Some (PList (PDict l :: rest)) /\
    dict_get l "run_number" = Some run /\
    dict_get l "lumi_section_num" = Some lumi.

(** The shape the specification words for a file record: flag and name
    both there. *)
Definition stated_file_shape (r : pyval) : Prop :=
  exists kvs f rest flag name,
    r = PDict kvs /\
    dict_get kvs "file" = Some (PList (PDict f :: rest)) /\
    dict_get f "is_file_valid" = Some flag /\
    dict_get f "name" = Some name.

(** The command [cmd], run in [w], exits with zero and prints a JSON list
    of [records]; [w'] is the world it leaves. *)
Definition answered (cmd : string) (w : W) (records : list pyval) (w' : W) : Prop :=
  exists stdout stderr,
    execute_command cmd None w = (Return (stdout, stderr, 0), w') /\
    stdout <> "" /\
    json_loads stdout = Some (PList records).

(** The command [cmd], run in [w], exits nonzero or prints nothing. *)
Definition refused (cmd : string) (w : W) (out : Completed) (w' : W) : Prop :=
  execute_command cmd None w = (Return out, w') /\
  (out.2 <> 0 \/ out.1.1 = "").

(** The names of the files whose flag holds, in the order of the answer. *)
Definition valid_names (entries : list (pyval * pyval)) : list pyval :=
  map snd (List.filter (fun e => truthy (fst e)) entries).

(** The file query of [dataset], run in [w], is answered by records of the
    expected shape carrying [entries] (flag, name). *)
Definition files_listed (dataset dbsurl : string) (w : W)
    (entries : list (pyval * pyval)) (w' : W) : Prop :=
  exists records,
    answered (fileCmd dataset dbsurl) w records w' /\
    Forall2 (fun r e => file_record r e.1 e.2) records entries.

(** The lumi queries of [names], run one after the other from [w], are all
    answered by records of the expected shape; [pairss] holds, per file, the
    (run, lumi) pairs in the order of the answer. *)
Inductive lumis_listed (dbsurl : string)
    : W -> list pyval -> list (list (pyval * pyval)) -> W -> Prop :=
| lumis_none (w : W) : lumis_listed dbsurl w [] [] w
| lumis_more (w w1 w2 : W) (file : pyval) (names : list pyval) (records : list pyval)
    (pairs : list (pyval * pyval)) (pairss : list (list (pyval * pyval))) :
    answered (lumiCmd dbsurl file) w records w1 ->
    Forall2 (fun r p => lumi_record r p.1 p.2) records pairs ->
    lumis_listed dbsurl w1 names pairss w2 ->
    lumis_listed dbsurl w (file :: names) (pairs :: pairss) w2.

(** [getLumiListInValidFiles dataset dbsurl], started in [w0], comes to run
    the command [cmd] in the world [w]: either the file query at the start,
    or the lumi query of a valid file once the queries before it were
    answered. *)
Inductive asks (dataset dbsurl : string) (w0 : W) : string -> W -> Prop :=
| asks_files : asks dataset dbsurl w0 (fileCmd dataset dbsurl) w0
| asks_lumis (w1 w2 : W) (entries : list (pyval * pyval)) (before after : list pyval)
    (file : pyval) (pairss : list (list (pyval * pyval))) :
    files_listed dataset dbsurl w0 entries w1 ->
    valid_names entries = (before ++ file :: after)%list ->
    lumis_listed dbsurl w1 before pairss w2 ->
    asks dataset dbsurl w0 (lumiCmd dbsurl file) w2.

(** The subscripting errors of Python. *)
Definition subscript_error (e : exn) : Prop :=
  e = KeyError \/ e = IndexError \/ e = TypeError.

(** [getLumiListInValidFiles dataset dbsurl], started in [w0], comes to read
    the record [r] in the world [w]: a record of the answer to the file
    query ([of_file = true]) or to the lumi query of a valid file, the
    records before it in that answer having the expected shape. *)
Inductive reads (dataset dbsurl : string) (w0 : W) : bool -> pyval -> W -> Prop :=
| reads_file (w1 : W) (good : list pyval) (entries : list (pyval * pyval))
    (r : pyval) (rest : list pyval) :
    answered (fileCmd dataset dbsurl) w0 (good ++ r :: rest)%list w1 ->
    Forall2 (fun r e => file_record r e.1 e.2) good entries ->
    reads dataset dbsurl w0 true r w1
| reads_lumi (w1 w2 w3 : W) (entries : list (pyval * pyval)) (before after : list pyval)
    (file : pyval) (pairss : list (list (pyval * pyval)))
    (good : list pyval) (pairs : list (pyval * pyval)) (r : pyval) (rest : list pyval) :
    files_listed dataset dbsurl w0 entries w1 ->
    valid_names entries = (before ++ file :: after)%list ->
    lumis_listed dbsurl w1 before pairss w2 ->
    answered (lumiCmd dbsurl file) w2 (good ++ r :: rest)%list w3 ->
    Forall2 (fun r p => lumi_record r p.1 p.2) good pairs ->
    reads dataset dbsurl w0 false r w3.

(** The record has the shape its loop reads. *)
Definition well_shaped (of_file : bool) (r : pyval) : Prop :=
  if of_file then exists flag name, file_record r flag name
  else exists run lumi, lumi_record r run lumi.

(** The certificate directory [curlGetFileFromURL] and
    [getUsernameFromCRIC] pass to curl. *)
Definition capath_of (w : W) : string :=
  default "/etc/grid-security/certificates" (environ w !! "X509_CERT_DIR").

(** The download command of [curlGetFileFromURL url filename proxyfilename
    logger], started in [w], hands back [out] and leaves the world [w1]. *)
Definition downloaded (url : string) (filename proxyfilename : option string)
    (logger : option Logger) (w : W) (out : Completed) (w1 : W) : Prop :=
  let cmd := downloadCommand (capath_of w) url filename proxyfilename in
  execute_command cmd logger (log_if logger DEBUG ("Will execute:" ++ NL ++ cmd) w).2
  = (Return out, w1).

(** The credential file [getUsernameFromCRIC] settles on: its argument, or
    what [getUserProxy] finds when the argument is missing. *)
Definition located (proxyFileName : option string) (w : W) : option string * W :=
  if opt_falsy proxyFileName then getUserProxy w else (proxyFileName, w).

(** The world in which the status command is called: [w] with the console
    muted. *)
Definition muted (w : W) : W := (setConsoleLogLevel LOGLEVEL_MUTE w).2.

(** The reading of the failure policy in which the diagnostic quotes both
    output streams of the refused command as they are. *)
Definition quotes_streams_verbatim (dataset dbsurl : string) (w0 : W) : Prop :=
  forall cmd w stdout stderr rc w',
    asks dataset dbsurl w0 cmd w ->
    refused cmd w (stdout, stderr, rc) w' ->
    exists msg,
      getLumiListInValidFiles dataset dbsurl w0 = (Raise (ClientException msg), w') /\
      includes cmd msg /\ includes stdout msg /\ includes stderr msg.

(** The reading of the shape assumption in which a file record without a
    flag or without a name always makes the function fail. *)
Definition fails_without_name (dataset dbsurl : string) (w0 : W) : Prop :=
  forall r w,
    reads dataset dbsurl w0 true r w ->
    ~ stated_file_shape r ->
    exists e, getLumiListInValidFiles dataset dbsurl w0 = (Raise e, w) /\ subscript_error e.

End Vocabulary.

(** ** A scripted instance of the collaborators

    Used to run the functions on concrete inputs: the external programs
    answer from a table. *)

Module Demo.

Record Script : Type := {
  (** streams, return code and the files the command writes *)
  on_command : string -> Completed * list (string * string);
  on_loads : string -> option pyval;
  proxy : option string;
  status_result : result pyval
}.

Definition write_all (writes : list (string * string)) (fs : gmap string string)
    : gmap string string :=
  fold_right (fun kv acc => <[kv.1 := kv.2]> acc) fs writes.

Definition decimal (s : string) : option Z :=
  option_map Z.of_int (NilZero.int_of_string s).

(** A text-mode read under an ASCII locale: bytes above 127 do not decode,
    and CR LF or a lone CR is read as LF. *)
Fixpoint ascii_only (s : string) : bool :=
  match s with
  | EmptyString => true
  | String c rest => (nat_of_ascii c <? 128)%nat && ascii_only rest
  end.

Fixpoint universal_newlines (s : string) : string :=
  match s with
  | EmptyString => EmptyString
  | String c rest =>
      if Ascii.eqb c "013"%char
      then match rest with
           | String c' rest' =>
               if Ascii.eqb c' "010"%char
               then String "010"%char (universal_newlines rest')
               else String "010"%char (universal_newlines rest)
           | EmptyString => String "010"%char EmptyString
           end
      else String c (universal_newlines rest)
  end.

Definition text_mode (bytes : string) : option string :=
  if ascii_only bytes then Some (universal_newlines bytes) else None.

Definition scripted (sc : Script) : Externals := {|
  Outside := unit;
  StatusCmd := unit;
  LumiListT := list (pyval * pyval);
  LumiList := fun lumis => lumis;
  subprocess := fun cmd _ w =>
    let (out, writes) := on_command sc cmd in
    (out, set_files (write_all writes (files w)) w);
  json_loads := on_loads sc;
  python_int := decimal;
  read_text := text_mode;
  python_repr := fun _ => "<object>";
  getUserProxy := fun w => (proxy sc, w);
  LOGLEVEL_MUTE := 60;
  colors_BOLD := "";
  colors_NORMAL := "";
  status_new := fun _ w => (Return tt, w);
  status_call := fun _ w => (status_result sc, w)
|}.

(** A freshly started process: no files, console at INFO. *)
Definition boot : World unit :=
  mkWorld ∅ ∅ 20 (Some [20; 10]) [] [] 0 tt.

Fixpoint answer {A : Type} (table : list (string * A)) (dflt : A) (key : string) : A :=
  match table with
  | [] => dflt
  | (k, a) :: rest => if String.eqb k key then a else answer rest dflt key
  end.

Definition file_rec (name : string) (valid : Z) : pyval :=
  PDict [("das", PDict []); ("qhash", PStr "1f");
         ("file", PList [PDict [("is_file_valid", PInt valid); ("name", PStr name)]])].

Definition lumi_rec (run lumi : Z) : pyval :=
  PDict [("das", PDict []); ("qhash", PStr "2e");
         ("lumi", PList [PDict [("lumi_section_num", PInt lumi); ("run_number", PInt run)]])].

(** A file record whose flag is off and which carries no name. *)
Definition nameless_rec : pyval :=
  PDict [("file", PList [PDict [("is_file_valid", PInt 0)]])].

(** A record without the ['file'] key. *)
Definition odd_rec : pyval := PDict [("das", PDict [])].

Definition certs : string := "/etc/grid-security/certificates".
Definition x509 : string := "/tmp/x509up_u0".
Definition two_lines : string := "line one" ++ NL ++ "line two".

Definition curl (url : string) : string :=
  downloadCommand certs url (Some "out.bin") (Some x509).

Definition commands : list (string * (Completed * list (string * string))) :=
  [ (dasCmd "phys03" "file dataset=/A/B/C", (("files.json", "", 0), []));
    (dasCmd "phys03" "lumi file=/store/a.root", (("lumis_a.json", "", 0), []));
    (dasCmd "phys03" "file dataset=/Empty/B/C", (("none.json", "", 0), []));
    (dasCmd "phys03" "file dataset=/Down/B/C", ((two_lines, "timeout", 1), []));
    (dasCmd "phys03" "file dataset=/Nameless/B/C", (("nameless.json", "", 0), []));
    (dasCmd "phys03" "file dataset=/Odd/B/C", (("odd.json", "", 0), []));
    (curl "https://nowhere.invalid/f",
       (("000", "curl: (6) Could not resolve host", 6), []));
    (curl "https://example.org/moved", (("301", "", 0), [("out.bin", "")]));
    (curl "https://example.org/cached", (("304", "", 0), []));
    (curl "https://example.org/missing", (("404", "", 0), [("out.bin", "Not Found")]));
    (curl "https://example.org/partial",
       (("000", "curl: (28) Operation timed out", 28), [("out.bin", "pay")]));
    (curl "https://example.org/f", (("200", "", 0), [("out.bin", "payload")]));
    (cric_queryCmd certs x509, (("login: jdoe", "", 0), []));
    (cric_parseCmd "login: jdoe", (("jdoe", "", 0), [])) ].

Definition documents : list (string * option pyval) :=
  [ ("files.json", Some (PList [file_rec "/store/a.root" 1; file_rec "/store/b.root" 0]));
    ("lumis_a.json", Some (PList [lumi_rec 1 10; lumi_rec 1 11]));
    ("none.json", Some (PList []));
    ("nameless.json", Some (PList [nameless_rec]));
    ("odd.json", Some (PList [odd_rec])) ].

Definition script (status : result pyval) : Script := {|
  on_command := answer commands (("", "command not found", 127), []);
  on_loads := answer documents None;
  proxy := Some x509;
  status_result := status
|}.

(** The status structure of a task whose query went through. *)
Definition status_ok : pyval :=
  PDict [("statusFailureMsg", PStr "");
         ("desc", PDict [("columns", PList [PStr "tm_taskname"; PStr "tm_task_status"])]);
         ("result", PList [PStr "task_1"; PStr "None"])].

(** The status structure of a task whose query failed on the server. *)
Definition status_failed : pyval :=
  PDict [("statusFailureMsg", PStr "Cannot find status")].

Definition world : Externals := scripted (script (Return status_ok)).
Definition world_failing : Externals := scripted (script (Return status_failed)).
Definition world_raising : Externals := scripted (script (Raise (ClientException "no task"))).

End Demo.

(** ** getUsername

    [getUsername] goes through [ClientUtilities.getUsernameFromCRIC_wrapped],
    which is not part of this file: the wrapper, [os.getuid()] and
    [colors.RED] are variables of the section. *)

Section Username.
Context `{X : Externals}.
Local Open Scope py_scope.

(** [getUsernameFromCRIC_wrapped(logger, proxyFile, quiet=...)]: the user
    name, or [None]. *)
Variable getUsernameFromCRIC_wrapped : Logger -> string -> bool -> M (option string).
Variable getuid : Z.
Variable colors_RED : string.

(** The name of [logging.getLogger()]. *)
Definition root_logger : Logger := "root".

(** ['/tmp/x509up_u%d' % os.getuid() if 'X509_USER_PROXY' not in os.environ
    else os.environ['X509_USER_PROXY']] *)
Definition proxy_from_environ (w : W) : string :=
  match environ w !! "X509_USER_PROXY" with
  | Some p => p
  | None => "/tmp/x509up_u" ++ str_of_Z getuid
  end.

Definition unresolved_msg : string :=
  colors_RED ++ "ERROR:" ++ colors_NORMAL
  ++ " CRIC could not resolve the DN in the user proxy into a user name"
  ++ NL ++ " Please find below details of failures for investigation:".

Definition getUsername (proxyFile : option string) (logger : option Logger)
    : M (option string) :=
  let logger := match logger with Some l => l | None => root_logger end in
  log_to logger DEBUG "Retrieving username ..." ;;
  proxyFile <- (if opt_falsy proxyFile
                then (fun w => (Return (proxy_from_environ w), w))
                else ret (str_of_opt proxyFile)) ;;
  username <- getUsernameFromCRIC_wrapped logger proxyFile true ;;
  if negb (opt_falsy username)
  then (log_to logger DEBUG ("username is " ++ str_of_opt username) ;; ret username)
  else (log_to logger ERROR unresolved_msg ;;
        getUsernameFromCRIC_wrapped logger proxyFile false).

End Username.

(** ** Further vocabulary *)

Section Replies.
Context `{X : Externals}.

(** The command [cmd], run in [w], exits with zero and prints JSON text
    over whose value the loop runs: [records] are the elements visited. *)
Definition replied (cmd : string) (w : W) (records : list pyval) (w' : W) : Prop :=
  exists stdout stderr v,
    execute_command cmd None w = (Return (stdout, stderr, 0), w') /\
    stdout <> "" /\
    json_loads stdout = Some v /\
    iter v = Return records.

(** [lumis_listed], with answers of any iterable JSON value. *)
Inductive lumis_replied (dbsurl : string)
    : W -> list pyval -> list (list (pyval * pyval)) -> W -> Prop :=
| replied_none (w : W) : lumis_replied dbsurl w [] [] w
| replied_more (w w1 w2 : W) (file : pyval) (names : list pyval) (records : list pyval)
    (pairs : list (pyval * pyval)) (pairss : list (list (pyval * pyval))) :
    replied (lumiCmd dbsurl file) w records w1 ->
    Forall2 (fun r p => lumi_record r p.1 p.2) records pairs ->
    lumis_replied dbsurl w1 names pairss w2 ->
    lumis_replied dbsurl w (file :: names) (pairs :: pairss) w2.

(** The instance selector holds no [%]: the template
    ["dasgoclient --query  '%s instance=prod/" + dbsurl + "' --json"] then has
    the single conversion [%s], and [dasCmd dbsurl query] is what
    [dasCmd % query] gives.  The statements about
    [getLumiListInValidFiles] are made for such selectors. *)
Definition no_conversion (dbsurl : string) : Prop := occurs "%" dbsurl = false.

(** A JSON value a [for] loop cannot run over. *)
Definition scalar (v : pyval) : Prop :=
  v = PNone \/ (exists b, v = PBool b) \/ (exists n, v = PInt n).

(** The commands [getUsernameFromCRIC] runs, given the credential it
    settled on and what the query handed back. *)
Definition cric_commands (capath : string) (pf : option string) (rc : Z) (stdout : string)
    : list string :=
  if opt_falsy pf then []
  else if failed rc stdout then [cric_queryCmd capath (str_of_opt pf)]
  else [cric_queryCmd capath (str_of_opt pf); cric_parseCmd stdout].

(** What follows the download command: the branch on the return code, the
    closing debug record and the return. *)
Definition curl_rest (filename : option string) (logger : option Logger)
    (stdout stderr : string) (rc : Z) : M Z :=
  bind (if negb (rc =? 0)
        then bind (os_unlink filename) (fun _ => ret (503, ""))
        else
          bind (lift (match python_int stdout with
                      | Some n => Return n
                      | None => Raise ValueError
                      end))
            (fun httpCode =>
               if negb (httpCode =? 200)
               then bind (read_file filename) (fun errorDetails =>
                      bind (os_unlink filename) (fun _ => ret (httpCode, errorDetails)))
               else ret (httpCode, "")))
       (fun res => let '(httpCode, errorDetails) := res in
          bind (log_if logger DEBUG (curl_summary rc stdout stderr errorDetails))
               (fun _ => ret httpCode)).

End Replies.

(** ** Further scripted cases *)

Module Cases.

Definition curl_to (filename : option string) (url : string) : string :=
  downloadCommand Demo.certs url filename (Some Demo.x509).

Definition commands : list (string * (Completed * list (string * string))) :=
  [ (dasCmd "phys03" "file dataset=/Garbled/B/C", (("<html>busy</html>", "", 0), []));
    (dasCmd "phys03" "file dataset=/Null/B/C", (("null", "", 0), []));
    (dasCmd "phys03" "file dataset=/Object/B/C", (("{}", "", 0), []));
    (dasCmd "phys03" "file dataset=/Silent/B/C", (("", "", 0), []));
    (dasCmd "phys03" "file dataset=/Error/B/C", (("error.json", "", 0), []));
    (curl_to (Some "out.bin") "https://example.org/binary",
       (("404", "", 0), [("out.bin", String "255"%char "PNG")]));
    (curl_to (Some "out.bin") "https://example.org/odd",
       (("n/a", "", 0), [("out.bin", "payload")]));
    (curl_to (Some "out.bin") "https://example.org/missing",
       (("404", "", 0), [("out.bin", "Not Found"); ("curl.log", "trace")]));
    (curl_to None "https://example.org/missing",
       (("404", "", 0), [("None", "Not Found")]));
    (cric_queryCmd Demo.certs Demo.x509, (("", "curl: (35) SSL connect error", 35), [])) ].

Definition documents : list (string * option pyval) :=
  [ ("null", Some PNone); ("{}", Some (PDict []));
    ("error.json", Some (PDict [("status", PStr "fail")])) ].

(** No proxy is found; the status structure lacks [statusFailureMsg]. *)
Definition script : Demo.Script := {|
  Demo.on_command := Demo.answer commands (("", "command not found", 127), []);
  Demo.on_loads := Demo.answer documents None;
  Demo.proxy := None;
  Demo.status_result := Return (PDict [("result", PList [])])
|}.

Definition world : Externals := Demo.scripted script.

(** A wrapper around CRIC that knows one proxy file. *)
Definition wrapped (known : string) (name : string)
    : Logger -> string -> bool -> World unit -> result (option string) * World unit :=
  fun logger proxyFile quiet w =>
    (Return (if String.eqb proxyFile known then Some name else None),
     set_logged (logged w ++ [(logger, if quiet then DEBUG else 20,
                               "Retrieving username from CRIC...")])%list w).

(** A process with [X509_USER_PROXY] set. *)
Definition boot_with_proxy : World unit :=
  mkWorld {[ "X509_USER_PROXY" := "/home/jdoe/proxy" ]} ∅ 20 None [] [] 0 tt.

End Cases.

(** ** Properties *)

(** *** getColumn *)

Section ColumnFacts.

Lemma eq_str_true (v : pyval) (s : string) : eq_str v s = true <-> v = PStr s.
Proof.
  destruct v; simpl; try (split; [discriminate | intros H; discriminate H]).
  rewrite String.eqb_eq. split; [intros -> | intros [= ->]]; reflexivity.
Qed.

Lemma find_index_first (name : string) (cols : list pyval) (i : nat) :
  find_index (fun x => eq_str x name) cols = Some i <-> first_position name cols i.
Proof.
  revert i. induction cols as [|c cols IH]; intros i; simpl.
  - split; [discriminate | intros [H _]; destruct i; discriminate H].
  - destruct (eq_str c name) eqn:E.
    + apply eq_str_true in E. subst c. split.
      * intros [= <-]. split; [reflexivity | intros j Hj; lia].
      * intros [Hi Hlt]. destruct i as [|i]; [reflexivity|].
        exfalso. apply (Hlt O); [lia | reflexivity].
    + assert (Hc : c <> PStr name).
      { intros ->. simpl in E. rewrite String.eqb_refl in E. discriminate. }
      destruct (find_index _ cols) as [k|] eqn:F; simpl.
      * split.
        -- intros [= <-]. destruct (proj1 (IH k) eq_refl) as [Hk Hlt].
           split; [exact Hk|]. intros [|j] Hj; simpl.
           ++ congruence.
           ++ apply Hlt. lia.
        -- intros [Hi Hlt]. destruct i as [|i]; [simpl in Hi; congruence|].
           f_equal. f_equal. symmetry.
           assert (Hf : first_position name cols i).
           { split; [exact Hi|]. intros j Hj. apply (Hlt (S j)). lia. }
           apply IH in Hf. congruence.
      * split; [discriminate|].
        intros [Hi Hlt]. destruct i as [|i]; [simpl in Hi; congruence|].
        assert (Hf : first_position name cols i).
        { split; [exact Hi|]. intros j Hj. apply (Hlt (S j)). lia. }
        apply IH in Hf. discriminate Hf.
Qed.

Lemma find_index_none (name : string) (cols : list pyval) :
  find_index (fun x => eq_str x name) cols = None <-> ~ In (PStr name) cols.
Proof.
  induction cols as [|c cols IH]; simpl.
  - split; [intros _ [] | reflexivity].
  - destruct (eq_str c name) eqn:E.
    + apply eq_str_true in E. split; [discriminate | intros H; exfalso; apply H; left; exact E].
    + assert (Hc : c <> PStr name).
      { intros ->. simpl in E. rewrite String.eqb_refl in E. discriminate. }
      destruct (find_index _ cols) as [k|]; simpl.
      * split; [discriminate|]. intros H. exfalso.
        destruct IH as [_ IH]. 
        assert (Hn : ~ In (PStr name) cols) by (intros Hin; apply H; right; exact Hin).
        discriminate (IH Hn).
      * split; [|reflexivity]. intros _ [Hin|Hin]; [exact (Hc Hin)|].
        destruct IH as [IH _]. exact (IH eq_refl Hin).
Qed.

Lemma seq_at_nat {A : Type} (xs : list A) (i : nat) :
  seq_at xs (Z.of_nat i) = nth_error xs i.
Proof.
  unfold seq_at.
  destruct (Z.of_nat i <? 0) eqn:Hneg; [apply Z.ltb_lt in Hneg; lia|].
  destruct (0 <=? Z.of_nat i) eqn:H0; [|apply Z.leb_gt in H0; lia]. simpl.
  destruct (Z.of_nat i <? Z.of_nat (length xs)) eqn:Hlt.
  - rewrite Nat2Z.id. reflexivity.
  - apply Z.ltb_ge in Hlt. symmetry. apply nth_error_None. lia.
Qed.

End ColumnFacts.

(** C6. When [desc.columns] is a list that contains the column name,
    [getColumn] returns the entry of [result] at the first position of the
    name, with the string ["None"] turned into [None]; when the list does
    not contain the name, the lookup fails ([list.index] raises
    [ValueError]). *)
Theorem getColumn_by_name (d desc : pyval) (cols : list pyval) (name : string) :
  getitem_str d "desc" = Return desc ->
  getitem_str desc "columns" = Return (PList cols) ->
  (In (PStr name) cols ->
     exists i, first_position name cols i /\
       forall vals v,
         getitem_str d "result" = Return (PList vals) ->
         nth_error vals i = Some v ->
         (v = PStr "None" -> getColumn d name = Return PNone) /\
         (v <> PStr "None" -> getColumn d name = Return v))
  /\ (~ In (PStr name) cols -> getColumn d name = Raise ValueError).
Proof.
  intros Hdesc Hcols. split.
  - intros Hin.
    destruct (find_index (fun x => eq_str x name) cols) as [i|] eqn:F.
    + exists i. split; [apply find_index_first; exact F|].
      intros vals v Hres Hv.
      assert (G : getColumn d name = if eq_str v "None" then Return PNone else Return v).
      { unfold getColumn. rewrite Hdesc. simpl. rewrite Hcols. simpl. rewrite F. simpl.
        rewrite Hres. simpl. rewrite seq_at_nat, Hv. reflexivity. }
      split.
      * intros ->. rewrite G. reflexivity.
      * intros Hne. rewrite G. destruct (eq_str v "None") eqn:E; [|reflexivity].
        apply eq_str_true in E. contradiction.
    + apply find_index_none in F. contradiction.
  - intros Hnot. apply find_index_none in Hnot.
    unfold getColumn. rewrite Hdesc. simpl. rewrite Hcols. simpl. rewrite Hnot. reflexivity.
Qed.

(** *** getLumiListInValidFiles *)

Section LumiFacts.
Context `{X : Externals}.

Lemma getitem_int_head (x : pyval) (xs : list pyval) :
  getitem_int (PList (x :: xs)) 0 = Return x.
Proof.
  unfold getitem_int.
  change (seq_at (x :: xs) 0) with (seq_at (x :: xs) (Z.of_nat 0)).
  rewrite seq_at_nat. reflexivity.
Qed.

Lemma getitem_int_head_str (c : ascii) (s : string) :
  getitem_int (PStr (String c s)) 0 = Return (PStr (String c EmptyString)).
Proof.
  unfold getitem_int.
  change (chars (String c s)) with (PStr (String c EmptyString) :: chars s).
  change (seq_at (PStr (String c EmptyString) :: chars s) 0)
    with (seq_at (PStr (String c EmptyString) :: chars s) (Z.of_nat 0)).
  rewrite seq_at_nat. reflexivity.
Qed.

Lemma getitem_str_dict (kvs : list (string * pyval)) (k : string) (v : pyval) :
  dict_get kvs k = Some v -> getitem_str (PDict kvs) k = Return v.
Proof. intros H. simpl. rewrite H. reflexivity. Qed.

Lemma file_step_read (acc : list pyval) (r flag name : pyval) (w : W) :
  file_record r flag name ->
  file_step acc r w = (Return (if truthy flag then acc ++ [name] else acc)%list, w).
Proof.
  intros (kvs & f & rest & -> & Hfile & Hflag & Hname).
  unfold file_step, bind, lift, ret.
  rewrite (getitem_str_dict _ _ _ Hfile), getitem_int_head, (getitem_str_dict _ _ _ Hflag).
  destruct (truthy flag); [|reflexivity].
  rewrite (getitem_str_dict _ _ _ (Hname eq_refl)). reflexivity.
Qed.

Lemma lumi_step_read (acc : list (pyval * pyval)) (r run lumi : pyval) (w : W) :
  lumi_record r run lumi ->
  lumi_step acc r w = (Return (acc ++ [(run, lumi)])%list, w).
Proof.
  intros (kvs & l & rest & -> & Hl & Hrun & Hlumi).
  unfold lumi_step, bind, lift, ret.
  rewrite (getitem_str_dict _ _ _ Hl), getitem_int_head,
    (getitem_str_dict _ _ _ Hrun), (getitem_str_dict _ _ _ Hlumi).
  reflexivity.
Qed.

Lemma file_loop (records : list pyval) (entries : list (pyval * pyval)) :
  Forall2 (fun r e => file_record r e.1 e.2) records entries ->
  forall (acc : list pyval) (w : W),
    for_each records file_step acc w = (Return (acc ++ valid_names entries)%list, w).
Proof.
  induction 1 as [|r [flag name] records entries Hr _ IH]; intros acc w; simpl.
  - unfold ret, valid_names. simpl. rewrite app_nil_r. reflexivity.
  - unfold bind. rewrite (file_step_read acc r flag name w Hr). simpl in *.
    rewrite IH. unfold valid_names. simpl.
    destruct (truthy flag); simpl; [rewrite <- app_assoc|]; reflexivity.
Qed.

Lemma lumi_loop (records : list pyval) (pairs : list (pyval * pyval)) :
  Forall2 (fun r p => lumi_record r p.1 p.2) records pairs ->
  forall (acc : list (pyval * pyval)) (w : W),
    for_each records lumi_step acc w = (Return (acc ++ pairs)%list, w).
Proof.
  induction 1 as [|r [run lumi] records pairs Hr _ IH]; intros acc w; simpl.
  - unfold ret. rewrite app_nil_r. reflexivity.
  - unfold bind. rewrite (lumi_step_read acc r run lumi w Hr).
    rewrite IH, <- app_assoc. reflexivity.
Qed.

Lemma str_empty_false (s : string) : s <> "" -> str_empty s = false.
Proof. intros H. unfold str_empty. apply String.eqb_neq. exact H. Qed.

Lemma failed_true (rc : Z) (stdout : string) :
  failed rc stdout = true <-> rc <> 0 \/ stdout = "".
Proof.
  unfold failed, str_empty. rewrite orb_true_iff, negb_true_iff, Z.eqb_neq, String.eqb_eq.
  reflexivity.
Qed.

Lemma calls_after (cmd : string) (logger : option Logger) (w w' : W) (r : result Completed) :
  execute_command cmd logger w = (r, w') -> calls w' = (calls w ++ [cmd])%list.
Proof.
  unfold execute_command. destruct (subprocess cmd logger w) as [out w1].
  intros [= _ <-]. reflexivity.
Qed.

(** A query that is answered hands its records to the loop that follows. *)
Lemma answered_then {A : Type} (cmd : string) (w w' : W) (records : list pyval)
    (k : list pyval -> M A) :
  answered cmd w records w' ->
  bind (execute_command cmd None)
       (fun out => let '(stdout, stderr, returncode) := out in
          if failed returncode stdout then complain cmd stdout stderr returncode
          else bind (loads stdout) (fun result => bind (lift (iter result)) k)) w
  = k records w'.
Proof.
  intros (so & se & Hrun & Hso & Hjson).
  unfold bind at 1. rewrite Hrun.
  unfold failed. rewrite (str_empty_false so Hso). simpl.
  unfold bind, loads, lift. rewrite Hjson. simpl. reflexivity.
Qed.

Lemma file_lumis_answered (dbsurl : string) (acc : list (pyval * pyval)) (file : pyval)
    (w w' : W) (records : list pyval) (pairs : list (pyval * pyval)) :
  answered (lumiCmd dbsurl file) w records w' ->
  Forall2 (fun r p => lumi_record r p.1 p.2) records pairs ->
  file_lumis dbsurl acc file w = (Return (acc ++ pairs)%list, w').
Proof.
  intros Hans Hrec. unfold file_lumis.
  rewrite (answered_then _ _ _ _ (fun records => for_each records lumi_step acc) Hans).
  apply lumi_loop. exact Hrec.
Qed.

Lemma lumis_loop (dbsurl : string) (w w' : W) (names : list pyval)
    (pairss : list (list (pyval * pyval))) :
  lumis_listed dbsurl w names pairss w' ->
  forall acc : list (pyval * pyval),
    for_each names (file_lumis dbsurl) acc w = (Return (acc ++ concat pairss)%list, w').
Proof.
  induction 1 as [w|w w1 w2 file names records pairs pairss Hans Hrec _ IH]; intros acc; simpl.
  - unfold ret. rewrite app_nil_r. reflexivity.
  - unfold bind. rewrite (file_lumis_answered dbsurl acc file w w1 records pairs Hans Hrec).
    rewrite IH, <- app_assoc. reflexivity.
Qed.

Lemma lumis_listed_calls (dbsurl : string) (w w' : W) (names : list pyval)
    (pairss : list (list (pyval * pyval))) :
  lumis_listed dbsurl w names pairss w' ->
  calls w' = (calls w ++ map (lumiCmd dbsurl) names)%list.
Proof.
  induction 1 as [w|w w1 w2 file names records pairs pairss Hans Hrec _ IH]; simpl.
  - rewrite app_nil_r. reflexivity.
  - destruct Hans as (so & se & Hrun & _). apply calls_after in Hrun.
    rewrite IH, Hrun, <- app_assoc. reflexivity.
Qed.

(** Once the file query is answered, what is left are the two loops. *)
Lemma after_file_query (dataset dbsurl : string) (w0 w1 : W) (records : list pyval) :
  answered (fileCmd dataset dbsurl) w0 records w1 ->
  getLumiListInValidFiles dataset dbsurl w0
  = bind (for_each records file_step [])
         (fun validFiles =>
            bind (for_each validFiles (file_lumis dbsurl) [])
                 (fun runLumiPairs => ret (LumiList runLumiPairs))) w1.
Proof.
  intros (so & se & Hrun & Hso & Hjson).
  unfold getLumiListInValidFiles. unfold bind at 1. rewrite Hrun.
  unfold failed. rewrite (str_empty_false so Hso). simpl.
  unfold bind at 1. unfold bind at 1. unfold loads, lift. rewrite Hjson. simpl.
  reflexivity.
Qed.

Lemma after_files (dataset dbsurl : string) (w0 w1 : W) (entries : list (pyval * pyval)) :
  files_listed dataset dbsurl w0 entries w1 ->
  getLumiListInValidFiles dataset dbsurl w0
  = bind (for_each (valid_names entries) (file_lumis dbsurl) [])
         (fun runLumiPairs => ret (LumiList runLumiPairs)) w1.
Proof.
  intros (records & Hans & Hrec).
  rewrite (after_file_query dataset dbsurl w0 w1 records Hans).
  unfold bind at 1. rewrite (file_loop records entries Hrec). reflexivity.
Qed.

End LumiFacts.

(** C1. When the file query is answered and the lumi query of every valid
    file is answered, the interval list is built from the (run, lumi) pairs
    of the valid files only, file after file and record after record in the
    order of the answers, nothing dropped and nothing reordered; the files
    whose flag does not hold are not even queried.
    Stated for an instance selector [dbsurl] without [%]. *)
Theorem lumis_of_valid_files `{X : Externals} (dataset dbsurl : string) (w0 w1 w2 : W)
    (entries : list (pyval * pyval)) (pairss : list (list (pyval * pyval))) :
  no_conversion dbsurl ->
  files_listed dataset dbsurl w0 entries w1 ->
  lumis_listed dbsurl w1 (valid_names entries) pairss w2 ->
  getLumiListInValidFiles dataset dbsurl w0 = (Return (LumiList (concat pairss)), w2) /\
  calls w2 = (calls w0 ++ fileCmd dataset dbsurl
                :: map (lumiCmd dbsurl) (valid_names entries))%list.
Proof.
  intros _ Hfiles Hlumis. split.
  - rewrite (after_files dataset dbsurl w0 w1 entries Hfiles).
    unfold bind. rewrite (lumis_loop dbsurl w1 w2 _ pairss Hlumis []). reflexivity.
  - destruct Hfiles as (records & (so & se & Hrun & _) & _).
    apply calls_after in Hrun.
    rewrite (lumis_listed_calls dbsurl w1 w2 _ pairss Hlumis), Hrun, <- app_assoc.
    reflexivity.
Qed.

(** C2. When the file query is answered and no file of the answer is valid
    (in particular when the answer lists no file at all), the function
    returns the interval list of no pair, without raising and without a
    further query.
    Stated for an instance selector [dbsurl] without [%]. *)
Theorem no_valid_file_no_lumi `{X : Externals} (dataset dbsurl : string) (w0 w1 : W)
    (entries : list (pyval * pyval)) :
  no_conversion dbsurl ->
  files_listed dataset dbsurl w0 entries w1 ->
  Forall (fun e => truthy e.1 = false) entries ->
  getLumiListInValidFiles dataset dbsurl w0 = (Return (LumiList []), w1).
Proof.
  intros _ Hfiles Hnone.
  rewrite (after_files dataset dbsurl w0 w1 entries Hfiles).
  assert (Hv : valid_names entries = []).
  { clear Hfiles. unfold valid_names.
    induction Hnone as [|e entries He _ IH]; simpl; [reflexivity|].
    rewrite He. exact IH. }
  rewrite Hv. reflexivity.
Qed.

Section QueryFacts.
Context `{X : Externals}.

Lemma append_assoc (a b c : string) : (a ++ b) ++ c = a ++ (b ++ c).
Proof.
  induction a as [|ch a IH]; [reflexivity|].
  change (String ch ((a ++ b) ++ c) = String ch (a ++ b ++ c)). rewrite IH. reflexivity.
Qed.

Lemma append_nil_r (a : string) : a ++ "" = a.
Proof.
  induction a as [|ch a IH]; [reflexivity|].
  change (String ch (a ++ "") = String ch a). rewrite IH. reflexivity.
Qed.

Lemma includes_self (p : string) : includes p p.
Proof. exists "", "". simpl. rewrite append_nil_r. reflexivity. Qed.

Lemma includes_empty (w : string) : includes "" w.
Proof. exists "", w. reflexivity. Qed.

Lemma includes_app_r (p x w : string) : includes p w -> includes p (x ++ w).
Proof.
  intros (pre & post & ->). exists (x ++ pre), post. rewrite append_assoc. reflexivity.
Qed.

Lemma includes_app_l (p w x : string) : includes p w -> includes p (w ++ x).
Proof.
  intros (pre & post & ->). exists pre, (post ++ x).
  rewrite !append_assoc. reflexivity.
Qed.

Lemma prefix_app (p post : string) : String.prefix p (p ++ post) = true.
Proof.
  induction p as [|ch p IH]; [destruct post; reflexivity|].
  change (String ch p ++ post) with (String ch (p ++ post)). simpl.
  destruct (ascii_dec ch ch); [exact IH | contradiction].
Qed.

Lemma includes_occurs (p w : string) : includes p w -> occurs p w = true.
Proof.
  intros (pre & post & ->). induction pre as [|ch pre IH].
  - change ("" ++ p ++ post) with (p ++ post).
    pose proof (prefix_app p post) as Hp.
    destruct (p ++ post); cbn [occurs]; rewrite Hp; reflexivity.
  - change (String ch pre ++ p ++ post) with (String ch (pre ++ p ++ post)).
    cbn [occurs]. rewrite IH. apply orb_true_r.
Qed.

Lemma str_empty_true (s : string) : str_empty s = true -> s = "".
Proof. unfold str_empty. apply String.eqb_eq. Qed.

(** What the diagnostic of [complain] contains. *)
Lemma complain_msg_contents (cmd stdout stderr : string) (rc : Z) :
  includes cmd (complain_msg cmd stdout stderr rc) /\
  includes (indent "    " stdout) (complain_msg cmd stdout stderr rc) /\
  includes (indent "    " stderr) (complain_msg cmd stdout stderr rc).
Proof.
  unfold complain_msg.
  set (m0 := "Failed executing " ++ cmd ++ ". Exitcode is " ++ str_of_Z rc).
  set (m1 := if str_empty stdout then m0
             else m0 ++ NL ++ "  Stdout:" ++ NL ++ "    " ++ indent "    " stdout).
  assert (H0 : includes cmd m0).
  { apply includes_app_r, includes_app_l, includes_self. }
  assert (H1 : includes cmd m1).
  { unfold m1. destruct (str_empty stdout); [exact H0 | apply includes_app_l, H0]. }
  assert (H2 : includes (indent "    " stdout) m1).
  { unfold m1. destruct (str_empty stdout) eqn:E.
    - apply str_empty_true in E. subst stdout. apply includes_empty.
    - do 5 apply includes_app_r. apply includes_self. }
  repeat split.
  - destruct (str_empty stderr); [exact H1 | apply includes_app_l, H1].
  - destruct (str_empty stderr); [exact H2 | apply includes_app_l, H2].
  - destruct (str_empty stderr) eqn:E.
    + apply str_empty_true in E. subst stderr. apply includes_empty.
    + do 5 apply includes_app_r. apply includes_self.
Qed.

(** A stream of one line is quoted as it is. *)
Lemma indent_one_line (pad s : string) :
  occurs NL s = false -> indent pad s = s.
Proof.
  induction s as [|c s IH]; [reflexivity|].
  cbn [occurs indent]. intros H. apply orb_false_elim in H as [Hp Hs].
  destruct (Ascii.eqb c "010") eqn:E.
  - apply Ascii.eqb_eq in E. subst c. simpl in Hp. destruct s; discriminate Hp.
  - rewrite (IH Hs). reflexivity.
Qed.

Lemma for_each_app {A S : Type} (xs ys : list A) (body : S -> A -> M S) (acc : S) (w : W) :
  for_each (xs ++ ys) body acc w = bind (for_each xs body acc) (for_each ys body) w.
Proof.
  revert acc w. induction xs as [|x xs IH]; intros acc w; simpl.
  - reflexivity.
  - unfold bind. destruct (body acc x w) as [[a|e] w1]; [|reflexivity].
    rewrite IH. reflexivity.
Qed.

(** A query that is refused makes [complain] raise in the world it leaves. *)
Lemma refused_then {A : Type} (cmd : string) (w w' : W) (stdout stderr : string) (rc : Z)
    (k : string -> M A) :
  refused cmd w (stdout, stderr, rc) w' ->
  bind (execute_command cmd None)
       (fun out => let '(stdout, stderr, returncode) := out in
          if failed returncode stdout then complain cmd stdout stderr returncode
          else k stdout) w
  = (Raise (ClientException (complain_msg cmd stdout stderr rc)), w').
Proof.
  intros [Hrun Hbad]. simpl in Hbad. apply failed_true in Hbad.
  unfold bind. rewrite Hrun, Hbad. reflexivity.
Qed.

Lemma file_lumis_refused (dbsurl : string) (acc : list (pyval * pyval)) (file : pyval)
    (w w' : W) (stdout stderr : string) (rc : Z) :
  refused (lumiCmd dbsurl file) w (stdout, stderr, rc) w' ->
  file_lumis dbsurl acc file w
  = (Raise (ClientException (complain_msg (lumiCmd dbsurl file) stdout stderr rc)), w').
Proof.
  intros Href. unfold file_lumis.
  exact (refused_then _ _ _ _ _ _
           (fun stdout => bind (loads stdout) (fun result =>
              bind (lift (iter result)) (fun records => for_each records lumi_step acc))) Href).
Qed.

(** The loop over the valid files stops at the first file whose body raises. *)
Lemma lumis_loop_stops (dbsurl : string) (w1 w2 w3 : W) (before after : list pyval)
    (file : pyval) (pairss : list (list (pyval * pyval))) (e : exn) :
  lumis_listed dbsurl w1 before pairss w2 ->
  file_lumis dbsurl (concat pairss) file w2 = (Raise e, w3) ->
  for_each (before ++ file :: after) (file_lumis dbsurl) [] w1 = (Raise e, w3).
Proof.
  intros Hbefore Hfile. rewrite for_each_app. unfold bind.
  rewrite (lumis_loop dbsurl w1 w2 before pairss Hbefore []). simpl.
  unfold bind. rewrite Hfile. reflexivity.
Qed.

End QueryFacts.

(** C3 (as amended). Whenever the function comes to run a query, the file
    query or the lumi query of a valid file, and the command exits nonzero
    or prints nothing, the function raises [ClientException] in the world
    that command left: no list is returned and no further command is run.
    The message contains the command line as it was run, and the stdout and
    the stderr of the command with four spaces put after each of their
    newlines.
    Stated for an instance selector [dbsurl] without [%]. *)
Theorem refused_query_raises `{X : Externals} (dataset dbsurl : string) (w0 w w' : W)
    (cmd stdout stderr : string) (rc : Z) :
  no_conversion dbsurl ->
  asks dataset dbsurl w0 cmd w ->
  refused cmd w (stdout, stderr, rc) w' ->
  exists msg,
    getLumiListInValidFiles dataset dbsurl w0 = (Raise (ClientException msg), w') /\
    includes cmd msg /\
    includes (indent "    " stdout) msg /\
    includes (indent "    " stderr) msg /\
    calls w' = (calls w ++ [cmd])%list.
Proof.
  intros _ Hasks Href. exists (complain_msg cmd stdout stderr rc).
  destruct (complain_msg_contents cmd stdout stderr rc) as (Hc & Ho & He).
  repeat split; try assumption.
  - destruct Hasks as [|w1 w2 entries before after file pairss Hfiles Hnames Hbefore].
    + unfold getLumiListInValidFiles.
      destruct Href as [Hrun Hbad]. simpl in Hbad. apply failed_true in Hbad.
      unfold bind at 1. rewrite Hrun, Hbad. reflexivity.
    + rewrite (after_files dataset dbsurl w0 w1 entries Hfiles), Hnames.
      unfold bind.
      rewrite (lumis_loop_stops dbsurl w1 w2 w' before after file pairss _ Hbefore
                 (file_lumis_refused dbsurl _ file w2 w' stdout stderr rc Href)).
      reflexivity.
  - destruct Href as [Hrun _]. exact (calls_after _ _ _ _ _ Hrun).
Qed.

(** The queries of the scripted catalog, as the statements need them. *)
Section DemoQueries.
Import Demo.

Ltac run := vm_compute; reflexivity.
Ltac shape := do 3 eexists; repeat (split; [reflexivity|]); try intros _; reflexivity.

Lemma demo_files_listed :
  @files_listed world "/A/B/C" "phys03" boot
    [(PInt 1, PStr "/store/a.root"); (PInt 0, PStr "/store/b.root")]
    (set_calls [fileCmd "/A/B/C" "phys03"] boot).
Proof.
  exists [file_rec "/store/a.root" 1; file_rec "/store/b.root" 0]. split.
  - exists "files.json", "". split; [run | split; [discriminate | reflexivity]].
  - repeat constructor; shape.
Defined.

Lemma demo_lumis_listed :
  @lumis_listed world "phys03"
    (set_calls [fileCmd "/A/B/C" "phys03"] boot)
    [PStr "/store/a.root"]
    [[(PInt 1, PInt 10); (PInt 1, PInt 11)]]
    (set_calls [fileCmd "/A/B/C" "phys03"; @lumiCmd world "phys03" (PStr "/store/a.root")] boot).
Proof.
  eapply lumis_more with (records := [lumi_rec 1 10; lumi_rec 1 11]).
  - exists "lumis_a.json", "". split; [run | split; [discriminate | reflexivity]].
  - repeat constructor; shape.
  - apply lumis_none.
Defined.

Lemma demo_no_files :
  @files_listed world "/Empty/B/C" "phys03" boot []
    (set_calls [fileCmd "/Empty/B/C" "phys03"] boot).
Proof.
  exists []. split.
  - exists "none.json", "". split; [run | split; [discriminate | reflexivity]].
  - constructor.
Defined.

Lemma demo_refused :
  @refused world (fileCmd "/Down/B/C" "phys03") boot (two_lines, "timeout", 1)
    (set_calls [fileCmd "/Down/B/C" "phys03"] boot).
Proof. split; [run | left; discriminate]. Defined.

End DemoQueries.

Lemma lumis_of_valid_files_witness :
  @getLumiListInValidFiles Demo.world "/A/B/C" "phys03" Demo.boot
  = (Return [(PInt 1, PInt 10); (PInt 1, PInt 11)],
     set_calls [fileCmd "/A/B/C" "phys03";
                @lumiCmd Demo.world "phys03" (PStr "/store/a.root")] Demo.boot) /\
  calls (set_calls [fileCmd "/A/B/C" "phys03";
                    @lumiCmd Demo.world "phys03" (PStr "/store/a.root")] Demo.boot)
  = [fileCmd "/A/B/C" "phys03"; @lumiCmd Demo.world "phys03" (PStr "/store/a.root")].
Proof.
  exact (@lumis_of_valid_files Demo.world "/A/B/C" "phys03" _ _ _ _ _
           eq_refl demo_files_listed demo_lumis_listed).
Defined.

Lemma no_valid_file_no_lumi_witness :
  @getLumiListInValidFiles Demo.world "/Empty/B/C" "phys03" Demo.boot
  = (Return [], set_calls [fileCmd "/Empty/B/C" "phys03"] Demo.boot).
Proof.
  apply (@no_valid_file_no_lumi Demo.world "/Empty/B/C" "phys03" _ _ []).
  - reflexivity.
  - exact demo_no_files.
  - constructor.
Defined.

Lemma refused_query_raises_witness :
  exists msg,
    @getLumiListInValidFiles Demo.world "/Down/B/C" "phys03" Demo.boot
    = (Raise (ClientException msg), set_calls [fileCmd "/Down/B/C" "phys03"] Demo.boot) /\
    includes (fileCmd "/Down/B/C" "phys03") msg /\
    includes (indent "    " Demo.two_lines) msg /\
    includes (indent "    " "timeout") msg /\
    calls (set_calls [fileCmd "/Down/B/C" "phys03"] Demo.boot)
    = (calls Demo.boot ++ [fileCmd "/Down/B/C" "phys03"])%list.
Proof.
  exact (@refused_query_raises Demo.world "/Down/B/C" "phys03" Demo.boot Demo.boot _ _ _ _ _
           eq_refl (asks_files _ _ _) demo_refused).
Defined.

(** The diagnostic of a refused query does not contain a stdout of two
    lines as it was printed: the second line comes out indented. *)
Lemma stdout_not_quoted_verbatim :
  ~ @quotes_streams_verbatim Demo.world "/Down/B/C" "phys03" Demo.boot.
Proof.
  intros H.
  destruct (H _ _ _ _ _ _ (asks_files _ _ _) demo_refused) as (msg & Hrun & _ & Hout & _).
  assert (E : @getLumiListInValidFiles Demo.world "/Down/B/C" "phys03" Demo.boot
              = (Raise (ClientException
                          (complain_msg (fileCmd "/Down/B/C" "phys03")
                             Demo.two_lines "timeout" 1)),
                 set_calls [fileCmd "/Down/B/C" "phys03"] Demo.boot)).
  { vm_compute. reflexivity. }
  rewrite E in Hrun. injection Hrun as <-.
  apply includes_occurs in Hout. vm_compute in Hout. discriminate Hout.
Qed.

Lemma getColumn_by_name_witness :
  (In (PStr "tm_task_status") [PStr "tm_taskname"; PStr "tm_task_status"] ->
     exists i, first_position "tm_task_status" [PStr "tm_taskname"; PStr "tm_task_status"] i /\
       forall vals v,
         getitem_str Demo.status_ok "result" = Return (PList vals) ->
         nth_error vals i = Some v ->
         (v = PStr "None" -> getColumn Demo.status_ok "tm_task_status" = Return PNone) /\
         (v <> PStr "None" -> getColumn Demo.status_ok "tm_task_status" = Return v))
  /\ (~ In (PStr "tm_task_status") [PStr "tm_taskname"; PStr "tm_task_status"] ->
      getColumn Demo.status_ok "tm_task_status" = Raise ValueError).
Proof.
  apply (getColumn_by_name Demo.status_ok
           (PDict [("columns", PList [PStr "tm_taskname"; PStr "tm_task_status"])])).
  - reflexivity.
  - reflexivity.
Defined.

Section ShapeFacts.
Context `{X : Externals}.

Lemma getitem_str_raises (v : pyval) (k : string) (e : exn) :
  getitem_str v k = Raise e -> subscript_error e.
Proof.
  unfold subscript_error.
  destruct v as [| | | | |kvs]; simpl; try (intros [= <-]; auto).
  destruct (dict_get kvs k); [discriminate | intros [= <-]; auto].
Qed.

Lemma getitem_int_raises (v : pyval) (i : Z) (e : exn) :
  getitem_int v i = Raise e -> subscript_error e.
Proof.
  unfold subscript_error.
  destruct v as [| | |s|xs|kvs]; simpl; try (intros [= <-]; auto).
  - destruct (seq_at (chars s) i); [discriminate | intros [= <-]; auto].
  - destruct (seq_at xs i); [discriminate | intros [= <-]; auto].
Qed.

(** What [v[0]] can be when it is a dictionary. *)
Lemma getitem_int_head_dict (v : pyval) (f : list (string * pyval)) :
  getitem_int v 0 = Return (PDict f) -> exists rest, v = PList (PDict f :: rest).
Proof.
  destruct v as [| | |s|xs|kvs]; try discriminate.
  - destruct s as [|c s]; [discriminate|].
    rewrite (getitem_int_head_str c s). discriminate.
  - destruct xs as [|x xs]; [discriminate|].
    rewrite getitem_int_head. intros [= ->]. exists xs. reflexivity.
Qed.

Lemma file_step_cases (acc : list pyval) (r : pyval) :
  (exists flag name, file_record r flag name) \/
  (exists e, subscript_error e /\ forall w : W, file_step acc r w = (Raise e, w)).
Proof.
  destruct (getitem_str r "file") as [v|e] eqn:Hfile.
  2: { right. exists e. split; [exact (getitem_str_raises _ _ _ Hfile)|].
       intros w. unfold file_step, bind, lift. rewrite Hfile. reflexivity. }
  destruct (getitem_int v 0) as [f|e] eqn:Hhead.
  2: { right. exists e. split; [exact (getitem_int_raises _ _ _ Hhead)|].
       intros w. unfold file_step, bind, lift. rewrite Hfile, Hhead. reflexivity. }
  destruct (getitem_str f "is_file_valid") as [flag|e] eqn:Hflag.
  2: { right. exists e. split; [exact (getitem_str_raises _ _ _ Hflag)|].
       intros w. unfold file_step, bind, lift. rewrite Hfile, Hhead, Hflag. reflexivity. }
  destruct r as [| | | | |kvs]; try discriminate.
  destruct f as [| | | | |fkv]; try discriminate.
  destruct (getitem_int_head_dict v fkv Hhead) as [rest ->].
  simpl in Hfile, Hflag.
  destruct (dict_get kvs "file") as [v'|] eqn:Hf; [|discriminate].
  injection Hfile as ->.
  destruct (dict_get fkv "is_file_valid") as [flag'|] eqn:Hv; [|discriminate].
  injection Hflag as ->.
  destruct (truthy flag) eqn:Ht.
  - destruct (dict_get fkv "name") as [name|] eqn:Hn.
    + left. exists flag, name, kvs, fkv, rest. repeat split; auto.
    + right. exists KeyError. split; [unfold subscript_error; auto|].
      intros w. unfold file_step, bind, lift.
      rewrite (getitem_str_dict _ _ _ Hf), getitem_int_head, (getitem_str_dict _ _ _ Hv), Ht.
      simpl. rewrite Hn. reflexivity.
  - left. exists flag, PNone, kvs, fkv, rest. repeat split; auto.
    intros Habs. congruence.
Qed.

Lemma lumi_step_cases (acc : list (pyval * pyval)) (r : pyval) :
  (exists run lumi, lumi_record r run lumi) \/
  (exists e, subscript_error e /\ forall w : W, lumi_step acc r w = (Raise e, w)).
Proof.
  destruct (getitem_str r "lumi") as [v|e] eqn:Hl.
  2: { right. exists e. split; [exact (getitem_str_raises _ _ _ Hl)|].
       intros w. unfold lumi_step, bind, lift. rewrite Hl. reflexivity. }
  destruct (getitem_int v 0) as [d|e] eqn:Hhead.
  2: { right. exists e. split; [exact (getitem_int_raises _ _ _ Hhead)|].
       intros w. unfold lumi_step, bind, lift. rewrite Hl, Hhead. reflexivity. }
  destruct (getitem_str d "run_number") as [run|e] eqn:Hrun.
  2: { right. exists e. split; [exact (getitem_str_raises _ _ _ Hrun)|].
       intros w. unfold lumi_step, bind, lift. rewrite Hl, Hhead, Hrun. reflexivity. }
  destruct (getitem_str d "lumi_section_num") as [lumi|e] eqn:Hlumi.
  2: { right. exists e. split; [exact (getitem_str_raises _ _ _ Hlumi)|].
       intros w. unfold lumi_step, bind, lift. rewrite Hl, Hhead, Hrun, Hlumi. reflexivity. }
  destruct r as [| | | | |kvs]; try discriminate.
  destruct d as [| | | | |dkv]; try discriminate.
  destruct (getitem_int_head_dict v dkv Hhead) as [rest ->].
  simpl in Hl, Hrun, Hlumi.
  destruct (dict_get kvs "lumi") as [v'|] eqn:H1; [|discriminate].
  injection Hl as ->.
  destruct (dict_get dkv "run_number") as [run'|] eqn:H2; [|discriminate].
  injection Hrun as ->.
  destruct (dict_get dkv "lumi_section_num") as [lumi'|] eqn:H3; [|discriminate].
  injection Hlumi as ->.
  left. exists run, lumi, kvs, dkv, rest. repeat split; auto.
Qed.

(** A loop over records stops at the first record whose body raises. *)
Lemma loop_stops {S : Type} (body : S -> pyval -> M S) (good rest : list pyval) (r : pyval)
    (acc acc' : S) (e : exn) (w : W) :
  for_each good body acc w = (Return acc', w) ->
  body acc' r w = (Raise e, w) ->
  for_each (good ++ r :: rest) body acc w = (Raise e, w).
Proof.
  intros Hgood Hbad. rewrite for_each_app. unfold bind. rewrite Hgood. simpl.
  unfold bind. rewrite Hbad. reflexivity.
Qed.

End ShapeFacts.

(** C10 (as amended). When the function comes to read a record that does
    not have the shape its loop reads (for a file record: a list under
    ['file'] whose first element is a dictionary with the flag, and with the
    name when the flag holds; for a lumi record: a list under ['lumi'] whose
    first element is a dictionary with the run number and the lumi-section
    number), the subscripting error ([KeyError], [IndexError] or
    [TypeError]) leaves the function as it is, in the world the query left:
    no [ClientException] is made of it.
    Stated for an instance selector [dbsurl] without [%]. *)
Theorem misshapen_record_raises `{X : Externals} (dataset dbsurl : string) (w0 w : W)
    (of_file : bool) (r : pyval) :
  no_conversion dbsurl ->
  reads dataset dbsurl w0 of_file r w ->
  ~ well_shaped of_file r ->
  exists e,
    getLumiListInValidFiles dataset dbsurl w0 = (Raise e, w) /\
    subscript_error e /\
    forall msg, e <> ClientException msg.
Proof.
  intros _ Hreads Hshape.
  assert (Hne : forall e, subscript_error e -> forall msg, e <> ClientException msg).
  { intros e [-> | [-> | ->]] msg; discriminate. }
  destruct Hreads as [w1 good entries r rest Hans Hgood
                     |w1 w2 w3 entries before after file pairss good pairs r rest
                        Hfiles Hnames Hbefore Hans Hgood]; simpl in Hshape.
  - destruct (file_step_cases (valid_names entries) r) as [Hok | (e & He & Hbad)];
      [contradiction|].
    exists e. split; [|split; [exact He | exact (Hne e He)]].
    rewrite (after_file_query dataset dbsurl w0 w1 _ Hans). unfold bind at 1.
    rewrite (loop_stops file_step good rest r [] (valid_names entries) e w1
               (file_loop good entries Hgood [] w1) (Hbad w1)).
    reflexivity.
  - destruct (lumi_step_cases (concat pairss ++ pairs)%list r) as [Hok | (e & He & Hbad)];
      [contradiction|].
    exists e. split; [|split; [exact He | exact (Hne e He)]].
    rewrite (after_files dataset dbsurl w0 w1 entries Hfiles), Hnames. unfold bind at 1.
    rewrite (lumis_loop_stops dbsurl w1 w2 w3 before after file pairss e Hbefore);
      [reflexivity|].
    unfold file_lumis.
    rewrite (answered_then _ _ _ _
               (fun records => for_each records lumi_step (concat pairss)) Hans).
    exact (loop_stops lumi_step good rest r (concat pairss) _ e w3
             (lumi_loop good pairs Hgood (concat pairss) w3) (Hbad w3)).
Qed.

Section DemoRecords.
Import Demo.

Lemma demo_reads_odd :
  @reads world "/Odd/B/C" "phys03" boot true odd_rec
    (set_calls [fileCmd "/Odd/B/C" "phys03"] boot).
Proof.
  apply (reads_file (X := world) "/Odd/B/C" "phys03" boot _ [] [] odd_rec []).
  - exists "odd.json", "". split; [vm_compute; reflexivity | split; [discriminate | reflexivity]].
  - constructor.
Defined.

Lemma demo_odd_shape : ~ well_shaped true odd_rec.
Proof.
  intros (flag & name & kvs & f & rest & Hr & Hf & _).
  injection Hr as <-. discriminate Hf.
Defined.

Lemma demo_reads_nameless :
  @reads world "/Nameless/B/C" "phys03" boot true nameless_rec
    (set_calls [fileCmd "/Nameless/B/C" "phys03"] boot).
Proof.
  apply (reads_file (X := world) "/Nameless/B/C" "phys03" boot _ [] [] nameless_rec []).
  - exists "nameless.json", "".
    split; [vm_compute; reflexivity | split; [discriminate | reflexivity]].
  - constructor.
Defined.

Lemma demo_nameless_shape : ~ stated_file_shape nameless_rec.
Proof.
  intros (kvs & f & rest & flag & name & Hr & Hf & _ & Hname).
  injection Hr as <-. injection Hf as <- _. discriminate Hname.
Defined.

End DemoRecords.

Lemma misshapen_record_raises_witness :
  exists e,
    @getLumiListInValidFiles Demo.world "/Odd/B/C" "phys03" Demo.boot
    = (Raise e, set_calls [fileCmd "/Odd/B/C" "phys03"] Demo.boot) /\
    subscript_error e /\
    forall msg, e <> ClientException msg.
Proof.
  exact (@misshapen_record_raises Demo.world "/Odd/B/C" "phys03" Demo.boot _ true
           Demo.odd_rec eq_refl demo_reads_odd demo_odd_shape).
Defined.

(** A file record whose flag is off and which carries no name is skipped:
    the function returns, although the record lacks the name. *)
Lemma nameless_invalid_file_is_skipped :
  ~ @fails_without_name Demo.world "/Nameless/B/C" "phys03" Demo.boot.
Proof.
  intros H.
  destruct (H _ _ demo_reads_nameless demo_nameless_shape) as (e & Hrun & _).
  assert (E : @getLumiListInValidFiles Demo.world "/Nameless/B/C" "phys03" Demo.boot
              = (Return [], set_calls [fileCmd "/Nameless/B/C" "phys03"] Demo.boot)).
  { vm_compute. reflexivity. }
  rewrite E in Hrun. discriminate Hrun.
Qed.

(** *** curlGetFileFromURL *)

Section DownloadFacts.
Context `{X : Externals}.

Lemma curl_runs (url : string) (filename proxyfilename : option string)
    (logger : option Logger) (w w1 : W) (stdout stderr : string) (rc : Z) :
  downloaded url filename proxyfilename logger w (stdout, stderr, rc) w1 ->
  curlGetFileFromURL url filename proxyfilename logger w
  = bind (if negb (rc =? 0)
          then bind (os_unlink filename) (fun _ => ret (503, ""))
          else
            bind (lift (match python_int stdout with
                        | Some n => Return n
                        | None => Raise ValueError
                        end))
              (fun httpCode =>
                 if negb (httpCode =? 200)
                 then bind (read_file filename) (fun errorDetails =>
                        bind (os_unlink filename) (fun _ => ret (httpCode, errorDetails)))
                 else ret (httpCode, "")))
         (fun res => let '(httpCode, errorDetails) := res in
            bind (log_if logger DEBUG (curl_summary rc stdout stderr errorDetails))
                 (fun _ => ret httpCode)) w1.
Proof.
  unfold downloaded. intros Hrun.
  unfold curlGetFileFromURL. unfold bind at 1. unfold environ_or.
  fold (capath_of w). unfold bind at 1.
  destruct (log_if logger DEBUG _ w) as [[[]|e] w'] eqn:Hlog.
  - simpl in Hrun. unfold bind at 1. rewrite Hrun. reflexivity.
  - exfalso. destruct logger; discriminate Hlog.
Qed.

Lemma log_if_records (logger : option Logger) (msg : string) (w : W) :
  exists w', log_if logger DEBUG msg w = (Return tt, w') /\
    files w' = files w /\
    logged w' = (logged w ++ match logger with Some l => [(l, DEBUG, msg)] | None => [] end)%list.
Proof.
  destruct logger as [l|]; simpl.
  - eexists. split; [reflexivity|]. split; reflexivity.
  - exists w. split; [reflexivity|]. split; [reflexivity|]. rewrite app_nil_r. reflexivity.
Qed.

(** X10. The command failed and left a file at the destination: 503, and
    the file is gone. *)
Lemma curl_failed_file_present (url f : string) (proxyfilename : option string)
    (logger : option Logger) (w w1 : W) (out : Completed) (body : string) :
  downloaded url (Some f) proxyfilename logger w out w1 ->
  out.2 <> 0 ->
  files w1 !! f = Some body ->
  exists w2,
    curlGetFileFromURL url (Some f) proxyfilename logger w = (Return 503, w2) /\
    files w2 = delete f (files w1) /\
    files w2 !! f = None.
Proof.
  destruct out as [[so se] rc]. simpl. intros Hrun Hrc Hfile.
  rewrite (curl_runs _ _ _ _ _ _ _ _ _ Hrun).
  apply Z.eqb_neq in Hrc. rewrite Hrc. simpl.
  unfold bind, os_unlink, ret. rewrite Hfile.
  destruct (log_if_records logger (curl_summary rc so se "") (set_files (delete f (files w1)) w1))
    as (w2 & -> & Hfs & _).
  exists w2. split; [reflexivity|]. split; [exact Hfs|].
  rewrite Hfs. simpl. apply lookup_delete_eq.
Qed.

(** The command failed and left no file at the destination: [os.unlink]
    raises, and no status is returned. *)
Lemma curl_failed_file_absent (url f : string) (proxyfilename : option string)
    (logger : option Logger) (w w1 : W) (out : Completed) :
  downloaded url (Some f) proxyfilename logger w out w1 ->
  out.2 <> 0 ->
  files w1 !! f = None ->
  curlGetFileFromURL url (Some f) proxyfilename logger w = (Raise OSError, w1).
Proof.
  destruct out as [[so se] rc]. simpl. intros Hrun Hrc Hfile.
  rewrite (curl_runs _ _ _ _ _ _ _ _ _ Hrun).
  apply Z.eqb_neq in Hrc. rewrite Hrc. simpl.
  unfold bind, os_unlink. rewrite Hfile. reflexivity.
Qed.

(** X11. The command succeeded with a status other than 200 and left a
    file whose content the text-mode read decodes: the status is returned,
    the file is gone, and with a logger the closing debug record ends with
    the text that was read. *)
Lemma curl_refused_file_present (url f : string) (proxyfilename : option string)
    (logger : option Logger) (w w1 : W) (stdout stderr bytes text : string) (code : Z) :
  downloaded url (Some f) proxyfilename logger w (stdout, stderr, 0) w1 ->
  python_int stdout = Some code ->
  code <> 200 ->
  files w1 !! f = Some bytes ->
  read_text bytes = Some text ->
  exists w2,
    curlGetFileFromURL url (Some f) proxyfilename logger w = (Return code, w2) /\
    files w2 !! f = None /\
    logged w2
    = (logged w1
       ++ match logger with
          | Some l => [(l, DEBUG,
                        ("exitcode: 0" ++ NL ++ "stdout: " ++ stdout ++ NL
                         ++ "stderr: " ++ stderr ++ NL ++ "error details: " ++ text)%string)]
          | None => []
          end)%list.
Proof.
  intros Hrun Hint Hcode Hfile Htext.
  rewrite (curl_runs _ _ _ _ _ _ _ _ _ Hrun). simpl.
  apply Z.eqb_neq in Hcode.
  unfold bind at 1. unfold bind at 1. unfold lift. rewrite Hint, Hcode. simpl.
  unfold bind at 1. unfold read_file. rewrite Hfile, Htext.
  unfold bind at 1. unfold os_unlink. rewrite Hfile. unfold ret at 1.
  destruct (log_if_records logger (curl_summary 0 stdout stderr text)
              (set_files (delete f (files w1)) w1)) as (w2 & Hlog & Hfs & Hrec).
  exists w2. split; [|split].
  - unfold bind. rewrite Hlog. reflexivity.
  - rewrite Hfs. simpl. apply lookup_delete_eq.
  - rewrite Hrec. destruct logger; reflexivity.
Qed.

(** The command succeeded with a status other than 200 and left no file:
    [open] raises, and no status is returned. *)
Lemma curl_refused_file_absent (url f : string) (proxyfilename : option string)
    (logger : option Logger) (w w1 : W) (stdout stderr : string) (code : Z) :
  downloaded url (Some f) proxyfilename logger w (stdout, stderr, 0) w1 ->
  python_int stdout = Some code ->
  code <> 200 ->
  files w1 !! f = None ->
  curlGetFileFromURL url (Some f) proxyfilename logger w = (Raise IOError, w1).
Proof.
  intros Hrun Hint Hcode Hfile.
  rewrite (curl_runs _ _ _ _ _ _ _ _ _ Hrun). simpl.
  apply Z.eqb_neq in Hcode.
  unfold bind at 1. unfold bind at 1. unfold lift. rewrite Hint, Hcode. simpl.
  unfold bind at 1. unfold read_file. rewrite Hfile. reflexivity.
Qed.

(** X12. Status 200: the files are left as the command left them. *)
Lemma curl_accepted (url : string) (filename proxyfilename : option string)
    (logger : option Logger) (w w1 : W) (stdout stderr : string) :
  downloaded url filename proxyfilename logger w (stdout, stderr, 0) w1 ->
  python_int stdout = Some 200 ->
  exists w2,
    curlGetFileFromURL url filename proxyfilename logger w = (Return 200, w2) /\
    files w2 = files w1.
Proof.
  intros Hrun Hint.
  rewrite (curl_runs _ _ _ _ _ _ _ _ _ Hrun). simpl.
  unfold bind at 1. unfold bind at 1. unfold lift. rewrite Hint. simpl. unfold ret at 1.
  destruct (log_if_records logger (curl_summary 0 stdout stderr "") w1)
    as (w2 & Hlog & Hfs & _).
  exists w2. split; [|exact Hfs].
  unfold bind. rewrite Hlog. reflexivity.
Qed.

End DownloadFacts.

(** C4, at an input where the code departs from it. curl cannot resolve
    the host, exits with 6 and has written nothing; [os.unlink] then raises
    on the missing destination and [curlGetFileFromURL] hands back no
    status at all, where 503 is expected. *)
Theorem curl_failure_without_file_raises :
  let w1 := set_calls [Demo.curl "https://nowhere.invalid/f"] Demo.boot in
  @downloaded Demo.world "https://nowhere.invalid/f" (Some "out.bin") (Some Demo.x509) None
    Demo.boot ("000", "curl: (6) Could not resolve host", 6) w1 /\
  files w1 !! "out.bin" = None /\
  @curlGetFileFromURL Demo.world "https://nowhere.invalid/f" (Some "out.bin")
    (Some Demo.x509) None Demo.boot = (Raise OSError, w1).
Proof. repeat split; vm_compute; reflexivity. Qed.

(** With part of the body on disk when curl gives up, the same branch does
    return 503 and removes the file. *)
Example curl_failure_with_partial_file :
  exists w2,
    @curlGetFileFromURL Demo.world "https://example.org/partial" (Some "out.bin")
      (Some Demo.x509) None Demo.boot = (Return 503, w2) /\
    files w2 !! "out.bin" = None.
Proof. eexists. split; vm_compute; reflexivity. Qed.

(** C5, at an input where the code departs from it. The server answers
    304 Not Modified: curl exits with 0 and prints the status, and since a
    304 carries no body it creates no file at the destination; [open] then
    raises on the missing file and the status is not returned. *)
Theorem curl_non_200_without_file_raises :
  let w1 := set_calls [Demo.curl "https://example.org/cached"] Demo.boot in
  @downloaded Demo.world "https://example.org/cached" (Some "out.bin") (Some Demo.x509) None
    Demo.boot ("304", "", 0) w1 /\
  files w1 !! "out.bin" = None /\
  @curlGetFileFromURL Demo.world "https://example.org/cached" (Some "out.bin")
    (Some Demo.x509) None Demo.boot = (Raise IOError, w1).
Proof. repeat split; vm_compute; reflexivity. Qed.

(** A redirect without a body: curl leaves an empty file, the status is
    returned and the file removed. *)
Example curl_301_with_empty_file :
  exists w2,
    @curlGetFileFromURL Demo.world "https://example.org/moved" (Some "out.bin")
      (Some Demo.x509) None Demo.boot = (Return 301, w2) /\
    files w2 !! "out.bin" = None.
Proof. eexists. split; vm_compute; reflexivity. Qed.

(** A 404 whose body reached the disk: 404 is returned, the body is in the
    debug record and the file is gone. *)
Example curl_404_with_body :
  exists w2,
    @curlGetFileFromURL Demo.world "https://example.org/missing" (Some "out.bin")
      (Some Demo.x509) (Some "crab") Demo.boot = (Return 404, w2) /\
    files w2 !! "out.bin" = None /\
    In ("crab", DEBUG, curl_summary 0 "404" "" "Not Found") (logged w2).
Proof.
  eexists. split; [vm_compute; reflexivity|]. split; [vm_compute; reflexivity|].
  right. left. vm_compute. reflexivity.
Qed.

(** A 200: the downloaded file stays. *)
Example curl_200_keeps_file :
  exists w2,
    @curlGetFileFromURL Demo.world "https://example.org/f" (Some "out.bin")
      (Some Demo.x509) None Demo.boot = (Return 200, w2) /\
    files w2 !! "out.bin" = Some "payload".
Proof. eexists. split; vm_compute; reflexivity. Qed.

(** *** getUsernameFromCRIC *)

(** C7. [getUsernameFromCRIC] raises [UsernameException] exactly when no
    credential file is located (none given and none found), or the query
    command exits nonzero or prints nothing, or the parsed user name is
    empty or the string [null]; in every other case it returns the parsed
    user name. *)
Theorem getUsernameFromCRIC_raises_iff `{X : Externals} (proxyFileName pf : option string)
    (w w1 w2 w3 : W) (stdout stderr username stderr' : string) (rc rc' : Z) :
  located proxyFileName w = (pf, w1) ->
  execute_command (cric_queryCmd (capath_of w) (str_of_opt pf)) None w1
    = (Return (stdout, stderr, rc), w2) ->
  execute_command (cric_parseCmd stdout) None w2 = (Return (username, stderr', rc'), w3) ->
  let r := (getUsernameFromCRIC proxyFileName w).1 in
  let no_credential := opt_falsy pf = true in
  let query_failed := rc <> 0 \/ stdout = "" in
  let no_username := username = "" \/ username = "null" in
  ((exists msg, r = Raise (UsernameException msg))
     <-> no_credential \/ query_failed \/ no_username) /\
  (~ (no_credential \/ query_failed \/ no_username) -> r = Return username).
Proof.
  intros Hloc Hquery Hparse r no_credential query_failed no_username.
  assert (Hr : r = if opt_falsy pf then Raise (UsernameException "Can't find user proxy file")
                   else if failed rc stdout
                        then Raise (UsernameException
                               (cric_contact_msg (cric_queryCmd (capath_of w) (str_of_opt pf))
                                  stdout stderr))
                        else if String.eqb username "null" || str_empty username
                             then Raise (UsernameException
                                    (cric_parse_msg (cric_queryCmd (capath_of w) (str_of_opt pf))
                                       stdout username))
                             else Return username).
  { unfold r, getUsernameFromCRIC. unfold bind at 1. unfold environ_or. fold (capath_of w).
    unfold bind at 1.
    unfold located in Hloc.
    destruct (opt_falsy proxyFileName);
      [cbv beta; rewrite Hloc | injection Hloc as Hp Hw; rewrite Hp, Hw in *; unfold ret at 1];
      cbv beta iota;
      (destruct (opt_falsy pf); [reflexivity|]);
      unfold bind at 1; rewrite Hquery;
      (destruct (failed rc stdout); [reflexivity|]);
      unfold bind at 1; rewrite Hparse;
      destruct (String.eqb username "null" || str_empty username); reflexivity. }
  assert (Hq : failed rc stdout = true <-> query_failed) by apply failed_true.
  assert (Hu : String.eqb username "null" || str_empty username = true <-> no_username).
  { unfold no_username, str_empty. rewrite orb_true_iff, !String.eqb_eq. tauto. }
  unfold no_credential. rewrite Hr.
  destruct (opt_falsy pf).
  { split; [split; [auto | intros _; eexists; reflexivity]|]. intros H. exfalso. auto. }
  destruct (failed rc stdout).
  { split; [split; [intros _; right; left; apply Hq; reflexivity
                   | intros _; eexists; reflexivity]|].
    intros H. exfalso. apply H. right. left. apply Hq. reflexivity. }
  destruct (String.eqb username "null" || str_empty username).
  { split; [split; [intros _; right; right; apply Hu; reflexivity
                   | intros _; eexists; reflexivity]|].
    intros H. exfalso. apply H. right. right. apply Hu. reflexivity. }
  split; [|reflexivity].
  split.
  - intros [msg Hmsg]. discriminate Hmsg.
  - intros [Hc | [Hf | Hn]].
    + discriminate Hc.
    + apply Hq in Hf. discriminate Hf.
    + apply Hu in Hn. discriminate Hn.
Qed.

Lemma getUsernameFromCRIC_raises_iff_witness :
  let r := (@getUsernameFromCRIC Demo.world None Demo.boot).1 in
  ((exists msg, r = Raise (UsernameException msg))
     <-> opt_falsy (Some Demo.x509) = true \/ (0 <> 0 \/ "login: jdoe" = "")
         \/ ("jdoe" = "" \/ "jdoe" = "null")) /\
  (~ (opt_falsy (Some Demo.x509) = true \/ (0 <> 0 \/ "login: jdoe" = "")
      \/ ("jdoe" = "" \/ "jdoe" = "null")) -> r = Return "jdoe").
Proof.
  apply (@getUsernameFromCRIC_raises_iff Demo.world None (Some Demo.x509) Demo.boot Demo.boot
           (set_calls [cric_queryCmd Demo.certs Demo.x509] Demo.boot)
           (set_calls [cric_queryCmd Demo.certs Demo.x509; cric_parseCmd "login: jdoe"]
              Demo.boot)
           "login: jdoe" "" "jdoe" "" 0 0).
  - reflexivity.
  - vm_compute. reflexivity.
  - vm_compute. reflexivity.
Defined.

(** *** getMutedStatusInfo *)

Section StatusFacts.
Context `{X : Externals}.

Lemma setConsoleLogLevel_sets (lvl : Z) (w : W) :
  exists w', setConsoleLogLevel lvl w = (Return tt, w') /\
    CONSOLE_LOGLEVEL w' = lvl /\ logged w' = logged w.
Proof.
  unfold setConsoleLogLevel, bind, setConsoleLogLevelVar. simpl.
  destruct (crab3_all w); eexists; repeat split.
Qed.

Lemma setConsoleLogLevel_marks (lvl : Z) (w : W) :
  exists w', setConsoleLogLevel lvl w = (Return tt, w') /\
    CONSOLE_LOGLEVEL w' = lvl /\ logged w' = logged w /\
    level_set_after w' = length (logged w).
Proof.
  unfold setConsoleLogLevel, bind, setConsoleLogLevelVar. simpl.
  destruct (crab3_all w); eexists; repeat split.
Qed.

Lemma muted_level (w : W) : CONSOLE_LOGLEVEL (muted w) = LOGLEVEL_MUTE.
Proof.
  unfold muted. destruct (setConsoleLogLevel_sets LOGLEVEL_MUTE w) as (w' & -> & H & _).
  exact H.
Qed.

(** Up to the call of the status command. *)
Lemma status_called (logger : Logger) (w0 w1 : W) (cmdobj : StatusCmd) :
  status_new logger w0 = (Return cmdobj, w1) ->
  getMutedStatusInfo logger w0
  = bind (status_call cmdobj) (fun statusDict =>
      bind (setConsoleLogLevel (CONSOLE_LOGLEVEL w1)) (fun _ =>
      bind (lift (getitem_str statusDict "statusFailureMsg")) (fun statusFailureMsg =>
      bind (if truthy statusFailureMsg
            then log_to logger ERROR (status_failure_text statusFailureMsg)
            else ret tt) (fun _ => ret statusDict)))) (muted w1).
Proof.
  intros Hnew. unfold getMutedStatusInfo. unfold bind at 1. rewrite Hnew.
  unfold bind at 1. unfold getConsoleLogLevel. unfold bind at 1. unfold muted.
  destruct (setConsoleLogLevel_sets LOGLEVEL_MUTE w1) as (w' & -> & _). reflexivity.
Qed.

End StatusFacts.

(** C8. When the status command returns normally, it was called with the
    console at the mute level; afterwards the console level is again the one
    the function saved before muting (the level at entry, whenever building
    the command object left it alone), the structure handed back is the one
    the command returned, and a non-empty [statusFailureMsg] is logged at
    error level on the caller's logger, in a record that holds the message.
    That record is logged after the level was put back: when the level was
    last set, only the records of the status command had been logged. *)
Theorem muted_status_restores_level `{X : Externals} (logger : Logger) (w0 w1 w2 : W)
    (cmdobj : StatusCmd) (statusDict statusFailureMsg : pyval) :
  status_new logger w0 = (Return cmdobj, w1) ->
  status_call cmdobj (muted w1) = (Return statusDict, w2) ->
  getitem_str statusDict "statusFailureMsg" = Return statusFailureMsg ->
  exists w3,
    getMutedStatusInfo logger w0 = (Return statusDict, w3) /\
    CONSOLE_LOGLEVEL (muted w1) = LOGLEVEL_MUTE /\
    CONSOLE_LOGLEVEL w3 = CONSOLE_LOGLEVEL w1 /\
    (CONSOLE_LOGLEVEL w1 = CONSOLE_LOGLEVEL w0 -> CONSOLE_LOGLEVEL w3 = CONSOLE_LOGLEVEL w0) /\
    logged w3
    = (logged w2
       ++ if truthy statusFailureMsg
          then [(logger, ERROR,
                 ("Error while getting status information. Got:" ++ NL
                  ++ str_of statusFailureMsg ++ " ")%string)]
          else [])%list /\
    level_set_after w3 = length (logged w2) /\
    includes (str_of statusFailureMsg) (status_failure_text statusFailureMsg).
Proof.
  intros Hnew Hcall Hmsg.
  assert (Hinc : includes (str_of statusFailureMsg) (status_failure_text statusFailureMsg)).
  { unfold status_failure_text. do 2 apply includes_app_r. apply includes_app_l, includes_self. }
  rewrite (status_called logger w0 w1 cmdobj Hnew).
  unfold bind at 1. rewrite Hcall.
  destruct (setConsoleLogLevel_marks (CONSOLE_LOGLEVEL w1) w2)
    as (w' & Hset & Hlvl & Hlog & Hmark).
  unfold bind at 1. rewrite Hset.
  unfold bind at 1. unfold lift. rewrite Hmsg.
  destruct (truthy statusFailureMsg).
  - eexists. split; [reflexivity|]. simpl.
    split; [apply muted_level|]. split; [exact Hlvl|]. split; [congruence|].
    split; [rewrite Hlog; reflexivity|]. split; [exact Hmark | exact Hinc].
  - exists w'. split; [reflexivity|].
    split; [apply muted_level|]. split; [exact Hlvl|]. split; [congruence|].
    split; [rewrite Hlog, app_nil_r; reflexivity|]. split; [exact Hmark | exact Hinc].
Qed.

Lemma muted_status_restores_level_witness :
  exists w3,
    @getMutedStatusInfo Demo.world_failing "crab" Demo.boot = (Return Demo.status_failed, w3) /\
    CONSOLE_LOGLEVEL (@muted Demo.world_failing Demo.boot) = 60 /\
    CONSOLE_LOGLEVEL w3 = CONSOLE_LOGLEVEL Demo.boot /\
    (CONSOLE_LOGLEVEL Demo.boot = CONSOLE_LOGLEVEL Demo.boot ->
     CONSOLE_LOGLEVEL w3 = CONSOLE_LOGLEVEL Demo.boot) /\
    logged w3
    = (logged (@muted Demo.world_failing Demo.boot)
       ++ [("crab", ERROR,
            ("Error while getting status information. Got:" ++ NL
             ++ "Cannot find status" ++ " ")%string)])%list /\
    level_set_after w3 = length (logged (@muted Demo.world_failing Demo.boot)) /\
    includes "Cannot find status"
      (@status_failure_text Demo.world_failing (PStr "Cannot find status")).
Proof.
  apply (@muted_status_restores_level Demo.world_failing "crab" Demo.boot Demo.boot
           (@muted Demo.world_failing Demo.boot) tt Demo.status_failed
           (PStr "Cannot find status")).
  - reflexivity.
  - reflexivity.
  - reflexivity.
Defined.

(** C9. When the call of the status command raises, the exception leaves
    [getMutedStatusInfo] in the very world the command left: the level saved
    before muting is not put back, and the console stays at the mute level
    (the command itself leaving the level as it found it). *)
Theorem raising_status_leaves_console_muted `{X : Externals} (logger : Logger) (w0 w1 w2 : W)
    (cmdobj : StatusCmd) (e : exn) :
  status_new logger w0 = (Return cmdobj, w1) ->
  status_call cmdobj (muted w1) = (Raise e, w2) ->
  CONSOLE_LOGLEVEL w2 = CONSOLE_LOGLEVEL (muted w1) ->
  getMutedStatusInfo logger w0 = (Raise e, w2) /\
  CONSOLE_LOGLEVEL w2 = LOGLEVEL_MUTE /\
  (CONSOLE_LOGLEVEL w1 <> LOGLEVEL_MUTE -> CONSOLE_LOGLEVEL w2 <> CONSOLE_LOGLEVEL w1).
Proof.
  intros Hnew Hcall Hkeep.
  assert (Hm : CONSOLE_LOGLEVEL w2 = LOGLEVEL_MUTE) by (rewrite Hkeep; apply muted_level).
  split; [|split; [exact Hm | congruence]].
  rewrite (status_called logger w0 w1 cmdobj Hnew).
  unfold bind at 1. rewrite Hcall. reflexivity.
Qed.

Lemma raising_status_leaves_console_muted_witness :
  @getMutedStatusInfo Demo.world_raising "crab" Demo.boot
  = (Raise (ClientException "no task"), @muted Demo.world_raising Demo.boot) /\
  CONSOLE_LOGLEVEL (@muted Demo.world_raising Demo.boot) = 60 /\
  (CONSOLE_LOGLEVEL Demo.boot <> 60 ->
   CONSOLE_LOGLEVEL (@muted Demo.world_raising Demo.boot) <> CONSOLE_LOGLEVEL Demo.boot).
Proof.
  apply (@raising_status_leaves_console_muted Demo.world_raising "crab" Demo.boot Demo.boot
           (@muted Demo.world_raising Demo.boot) tt (ClientException "no task")).
  - reflexivity.
  - reflexivity.
  - reflexivity.
Defined.

(** ** Further properties *)

(** *** getLumiListInValidFiles: what a normal return tells *)

Section ReplyFacts.
Context `{X : Externals}.

Lemma failed_false (rc : Z) (stdout : string) :
  failed rc stdout = false -> rc = 0 /\ stdout <> "".
Proof.
  unfold failed, str_empty. intros H. apply orb_false_elim in H as [Hrc Hso].
  apply negb_false_iff, Z.eqb_eq in Hrc. apply String.eqb_neq in Hso. auto.
Qed.

Lemma file_loop_inv (records : list pyval) :
  forall (acc vf : list pyval) (w w' : W),
    for_each records file_step acc w = (Return vf, w') ->
    w' = w /\
    exists entries,
      Forall2 (fun r e => file_record r e.1 e.2) records entries /\
      vf = (acc ++ valid_names entries)%list.
Proof.
  induction records as [|r records IH]; intros acc vf w w'; simpl.
  - unfold ret. intros [= <- <-]. split; [reflexivity|].
    exists []. split; [constructor|]. unfold valid_names. simpl.
    rewrite app_nil_r. reflexivity.
  - unfold bind.
    destruct (file_step_cases acc r) as [(flag & name & Hrec) | (e & _ & Hbad)].
    + rewrite (file_step_read acc r flag name w Hrec). intros Hrest.
      destruct (IH _ _ _ _ Hrest) as (-> & entries & Hall & ->).
      split; [reflexivity|].
      exists ((flag, name) :: entries). split; [constructor; assumption|].
      unfold valid_names. simpl.
      destruct (truthy flag); simpl; [rewrite <- app_assoc|]; reflexivity.
    + rewrite (Hbad w). discriminate.
Qed.

Lemma lumi_loop_inv (records : list pyval) :
  forall (acc ps : list (pyval * pyval)) (w w' : W),
    for_each records lumi_step acc w = (Return ps, w') ->
    w' = w /\
    exists pairs,
      Forall2 (fun r p => lumi_record r p.1 p.2) records pairs /\
      ps = (acc ++ pairs)%list.
Proof.
  induction records as [|r records IH]; intros acc ps w w'; simpl.
  - unfold ret. intros [= <- <-]. split; [reflexivity|].
    exists []. split; [constructor|]. rewrite app_nil_r. reflexivity.
  - unfold bind.
    destruct (lumi_step_cases acc r) as [(run & lumi & Hrec) | (e & _ & Hbad)].
    + rewrite (lumi_step_read acc r run lumi w Hrec). intros Hrest.
      destruct (IH _ _ _ _ Hrest) as (-> & pairs & Hall & ->).
      split; [reflexivity|].
      exists ((run, lumi) :: pairs). split; [constructor; assumption|].
      rewrite <- app_assoc. reflexivity.
    + rewrite (Hbad w). discriminate.
Qed.

(** What a query stage does with the answer of its command. *)
Lemma stage_outcome {A : Type} (cmd : string) (w w' : W) (stdout stderr : string) (rc : Z)
    (k : list pyval -> M A) :
  execute_command cmd None w = (Return (stdout, stderr, rc), w') ->
  bind (execute_command cmd None)
       (fun out => let '(stdout, stderr, returncode) := out in
          if failed returncode stdout then complain cmd stdout stderr returncode
          else bind (loads stdout) (fun result => bind (lift (iter result)) k)) w
  = if failed rc stdout
    then (Raise (ClientException (complain_msg cmd stdout stderr rc)), w')
    else match json_loads stdout with
         | None => (Raise ValueError, w')
         | Some v => match iter v with
                     | Return records => k records w'
                     | Raise e => (Raise e, w')
                     end
         end.
Proof.
  intros Hrun. unfold bind at 1. rewrite Hrun.
  destruct (failed rc stdout); [reflexivity|].
  unfold bind, loads, lift. destruct (json_loads stdout) as [v|]; [|reflexivity].
  destruct (iter v); reflexivity.
Qed.

Lemma execute_command_returns (cmd : string) (logger : option Logger) (w : W) :
  exists out w', execute_command cmd logger w = (Return out, w').
Proof.
  unfold execute_command. destruct (subprocess cmd logger w) as [out w1]. eauto.
Qed.

(** The function as its first stage followed by the loop over the files. *)
Lemma first_stage (dataset dbsurl : string) (w0 : W) :
  getLumiListInValidFiles dataset dbsurl w0
  = bind (bind (execute_command (fileCmd dataset dbsurl) None)
            (fun out => let '(stdout, stderr, returncode) := out in
               if failed returncode stdout
               then complain (fileCmd dataset dbsurl) stdout stderr returncode
               else bind (loads stdout) (fun result =>
                      bind (lift (iter result)) (fun records =>
                        for_each records file_step []))))
         (fun validFiles =>
            bind (for_each validFiles (file_lumis dbsurl) [])
                 (fun runLumiPairs => ret (LumiList runLumiPairs))) w0.
Proof.
  unfold getLumiListInValidFiles, bind.
  destruct (execute_command (fileCmd dataset dbsurl) None w0) as [[[[so se] rc]|e] w1];
    reflexivity.
Qed.

Lemma file_lumis_inv (dbsurl : string) (acc ps : list (pyval * pyval)) (file : pyval)
    (w w' : W) :
  file_lumis dbsurl acc file w = (Return ps, w') ->
  exists records pairs,
    replied (lumiCmd dbsurl file) w records w' /\
    Forall2 (fun r p => lumi_record r p.1 p.2) records pairs /\
    ps = (acc ++ pairs)%list.
Proof.
  unfold file_lumis.
  destruct (execute_command_returns (lumiCmd dbsurl file) None w) as ([[so se] rc] & w1 & Hrun).
  rewrite (stage_outcome _ _ _ _ _ _ (fun records => for_each records lumi_step acc) Hrun).
  destruct (failed rc so) eqn:Hf; [discriminate|].
  apply failed_false in Hf as [-> Hso].
  destruct (json_loads so) as [v|] eqn:Hj; [|discriminate].
  destruct (iter v) as [records|e] eqn:Hi; [|discriminate].
  intros Hloop. destruct (lumi_loop_inv records _ _ _ _ Hloop) as (-> & pairs & Hall & ->).
  exists records, pairs. split; [|split; [exact Hall | reflexivity]].
  exists so, se, v. auto.
Qed.

Lemma lumis_loop_inv (dbsurl : string) (names : list pyval) :
  forall (acc ps : list (pyval * pyval)) (w w' : W),
    for_each names (file_lumis dbsurl) acc w = (Return ps, w') ->
    exists pairss,
      lumis_replied dbsurl w names pairss w' /\
      ps = (acc ++ concat pairss)%list.
Proof.
  induction names as [|file names IH]; intros acc ps w w'; simpl.
  - unfold ret. intros [= <- <-]. exists []. split; [constructor|].
    simpl. rewrite app_nil_r. reflexivity.
  - unfold bind. destruct (file_lumis dbsurl acc file w) as [[ps1|e] w1] eqn:Hfile;
      [|discriminate].
    destruct (file_lumis_inv _ _ _ _ _ _ Hfile) as (records & pairs & Hrep & Hall & ->).
    intros Hrest. destruct (IH _ _ _ _ Hrest) as (pairss & Hreps & ->).
    exists (pairs :: pairss). split.
    + exact (replied_more dbsurl w w1 w' file names records pairs pairss Hrep Hall Hreps).
    + simpl. rewrite <- app_assoc. reflexivity.
Qed.

(** An answer the loop cannot be run over ends the function, whichever
    query it answers. *)
Lemma unreadable_answer (dataset dbsurl : string) (w0 w w' : W) (cmd stdout stderr : string)
    (e : exn) :
  asks dataset dbsurl w0 cmd w ->
  execute_command cmd None w = (Return (stdout, stderr, 0), w') ->
  stdout <> "" ->
  match json_loads stdout with
  | None => Raise ValueError
  | Some v => iter v
  end = Raise e ->
  getLumiListInValidFiles dataset dbsurl w0 = (Raise e, w').
Proof.
  intros Hasks Hrun Hso Hbad.
  assert (Hf : failed 0 stdout = false).
  { unfold failed. rewrite (str_empty_false _ Hso). reflexivity. }
  assert (Hstage : forall (A : Type) (k : list pyval -> M A),
             bind (execute_command cmd None)
               (fun out => let '(stdout, stderr, returncode) := out in
                  if failed returncode stdout then complain cmd stdout stderr returncode
                  else bind (loads stdout) (fun result => bind (lift (iter result)) k)) w
             = (Raise e, w')).
  { intros A k. rewrite (stage_outcome _ _ _ _ _ _ k Hrun), Hf.
    destruct (json_loads stdout) as [v|].
    - rewrite Hbad. reflexivity.
    - injection Hbad as <-. reflexivity. }
  destruct Hasks as [|w1 w2 entries before after file pairss Hfiles Hnames Hbefore].
  - rewrite first_stage. unfold bind at 1. rewrite Hstage. reflexivity.
  - rewrite (after_files dataset dbsurl w0 w1 entries Hfiles), Hnames. unfold bind at 1.
    rewrite (lumis_loop_stops dbsurl w1 w2 w' before after file pairss e Hbefore);
      [reflexivity|].
    unfold file_lumis. apply Hstage.
Qed.

End ReplyFacts.

(** X1. A list is returned only when nothing went wrong on the way: if
    [getLumiListInValidFiles] returns, then the file query exited with zero
    on non-empty JSON whose records all have the shape the loop reads, the
    lumi query of every valid file did the same, and the list returned is
    built from the pairs of exactly these answers, in order.  No partial
    result is ever returned.
    Stated for an instance selector [dbsurl] without [%]. *)
Theorem returned_list_is_complete `{X : Externals} (dataset dbsurl : string) (w0 w' : W)
    (ll : LumiListT) :
  no_conversion dbsurl ->
  getLumiListInValidFiles dataset dbsurl w0 = (Return ll, w') ->
  exists records entries pairss w1,
    replied (fileCmd dataset dbsurl) w0 records w1 /\
    Forall2 (fun r e => file_record r e.1 e.2) records entries /\
    lumis_replied dbsurl w1 (valid_names entries) pairss w' /\
    ll = LumiList (concat pairss).
Proof.
  intros _. rewrite first_stage. unfold bind at 1.
  destruct (execute_command_returns (fileCmd dataset dbsurl) None w0)
    as ([[so se] rc] & w1 & Hrun).
  rewrite (stage_outcome _ _ _ _ _ _ (fun records => for_each records file_step []) Hrun).
  destruct (failed rc so) eqn:Hf; [discriminate|].
  apply failed_false in Hf as [-> Hso].
  destruct (json_loads so) as [v|] eqn:Hj; [|discriminate].
  destruct (iter v) as [records|e] eqn:Hi; [|discriminate].
  destruct (for_each records file_step [] w1) as [[vf|e] w1'] eqn:Hloop; [|discriminate].
  destruct (file_loop_inv records _ _ _ _ Hloop) as (-> & entries & Hall & ->).
  simpl. unfold bind.
  destruct (for_each (valid_names entries) (file_lumis dbsurl) [] w1) as [[ps|e] w2] eqn:Hl;
    [|discriminate].
  destruct (lumis_loop_inv dbsurl _ _ _ _ _ Hl) as (pairss & Hreps & ->).
  unfold ret. intros [= <- <-].
  exists records, entries, pairss, w1. repeat split; try assumption.
  exists so, se, v. auto.
Qed.

Lemma returned_list_is_complete_witness :
  exists records entries pairss w1,
    @replied Demo.world (fileCmd "/A/B/C" "phys03") Demo.boot records w1 /\
    Forall2 (fun r e => file_record r e.1 e.2) records entries /\
    @lumis_replied Demo.world "phys03" w1 (valid_names entries) pairss
      (set_calls [fileCmd "/A/B/C" "phys03";
                  @lumiCmd Demo.world "phys03" (PStr "/store/a.root")] Demo.boot) /\
    [(PInt 1, PInt 10); (PInt 1, PInt 11)] = @LumiList Demo.world (concat pairss).
Proof.
  apply (@returned_list_is_complete Demo.world "/A/B/C" "phys03" Demo.boot).
  - reflexivity.
  - vm_compute. reflexivity.
Defined.

(** X2. An answer that is not JSON: when a query the function runs (the
    file query or the lumi query of a valid file) exits with zero and prints
    text [json.loads] rejects, the [ValueError] of [json.loads] leaves the
    function as it is, in the world that command left; it is not turned into
    the [ClientException] that names the command.
    Stated for an instance selector [dbsurl] without [%]. *)
Theorem garbled_answer_raises_ValueError `{X : Externals} (dataset dbsurl : string)
    (w0 w w' : W) (cmd stdout stderr : string) :
  no_conversion dbsurl ->
  asks dataset dbsurl w0 cmd w ->
  execute_command cmd None w = (Return (stdout, stderr, 0), w') ->
  stdout <> "" ->
  json_loads stdout = None ->
  getLumiListInValidFiles dataset dbsurl w0 = (Raise ValueError, w').
Proof.
  intros _ Hasks Hrun Hso Hj.
  apply (unreadable_answer dataset dbsurl w0 w w' cmd stdout stderr ValueError Hasks Hrun Hso).
  rewrite Hj. reflexivity.
Qed.

Lemma garbled_answer_raises_ValueError_witness :
  @getLumiListInValidFiles Cases.world "/Garbled/B/C" "phys03" Demo.boot
  = (Raise ValueError, set_calls [fileCmd "/Garbled/B/C" "phys03"] Demo.boot).
Proof.
  apply (@garbled_answer_raises_ValueError Cases.world "/Garbled/B/C" "phys03" Demo.boot
           Demo.boot _ (fileCmd "/Garbled/B/C" "phys03") "<html>busy</html>" "").
  - reflexivity.
  - apply asks_files.
  - vm_compute. reflexivity.
  - discriminate.
  - reflexivity.
Defined.

(** X3. An answer that is JSON but no container: when a query the function
    runs exits with zero and prints [null], a boolean or a number, the
    [for] loop over it raises [TypeError], which leaves the function as it
    is.
    Stated for an instance selector [dbsurl] without [%]. *)
Theorem scalar_answer_raises_TypeError `{X : Externals} (dataset dbsurl : string)
    (w0 w w' : W) (cmd stdout stderr : string) (v : pyval) :
  no_conversion dbsurl ->
  asks dataset dbsurl w0 cmd w ->
  execute_command cmd None w = (Return (stdout, stderr, 0), w') ->
  stdout <> "" ->
  json_loads stdout = Some v ->
  scalar v ->
  getLumiListInValidFiles dataset dbsurl w0 = (Raise TypeError, w').
Proof.
  intros _ Hasks Hrun Hso Hj Hv.
  apply (unreadable_answer dataset dbsurl w0 w w' cmd stdout stderr TypeError Hasks Hrun Hso).
  rewrite Hj. destruct Hv as [-> | [[b ->] | [n ->]]]; reflexivity.
Qed.

Lemma scalar_answer_raises_TypeError_witness :
  @getLumiListInValidFiles Cases.world "/Null/B/C" "phys03" Demo.boot
  = (Raise TypeError, set_calls [fileCmd "/Null/B/C" "phys03"] Demo.boot).
Proof.
  apply (@scalar_answer_raises_TypeError Cases.world "/Null/B/C" "phys03" Demo.boot
           Demo.boot _ (fileCmd "/Null/B/C" "phys03") "null" "" PNone).
  - reflexivity.
  - apply asks_files.
  - vm_compute. reflexivity.
  - discriminate.
  - reflexivity.
  - left. reflexivity.
Defined.

(** X4. An answer that is a JSON object: the loop of the file query then
    runs over the keys.  With no key at all the function returns the list of
    no pair, as for a dataset without files; with any key the first step
    subscripts a string and [TypeError] leaves the function.
    Stated for an instance selector [dbsurl] without [%]. *)
Theorem object_answer_to_file_query `{X : Externals} (dataset dbsurl : string) (w0 w1 : W)
    (stdout stderr : string) (kvs : list (string * pyval)) :
  no_conversion dbsurl ->
  execute_command (fileCmd dataset dbsurl) None w0 = (Return (stdout, stderr, 0), w1) ->
  stdout <> "" ->
  json_loads stdout = Some (PDict kvs) ->
  getLumiListInValidFiles dataset dbsurl w0
  = (match kvs with
     | [] => Return (LumiList [])
     | _ :: _ => Raise TypeError
     end, w1).
Proof.
  intros _ Hrun Hso Hj.
  assert (Hf : failed 0 stdout = false).
  { unfold failed. rewrite (str_empty_false _ Hso). reflexivity. }
  rewrite first_stage. unfold bind at 1.
  rewrite (stage_outcome _ _ _ _ _ _ (fun records => for_each records file_step []) Hrun).
  rewrite Hf, Hj. destruct kvs as [|[k v] kvs]; reflexivity.
Qed.

Lemma object_answer_to_file_query_witness :
  @getLumiListInValidFiles Cases.world "/Object/B/C" "phys03" Demo.boot
  = (Return [], set_calls [fileCmd "/Object/B/C" "phys03"] Demo.boot) /\
  @getLumiListInValidFiles Cases.world "/Error/B/C" "phys03" Demo.boot
  = (Raise TypeError, set_calls [fileCmd "/Error/B/C" "phys03"] Demo.boot).
Proof.
  split.
  - apply (@object_answer_to_file_query Cases.world "/Object/B/C" "phys03" Demo.boot _
             "{}" "" []).
    + reflexivity.
    + vm_compute. reflexivity.
    + discriminate.
    + reflexivity.
  - apply (@object_answer_to_file_query Cases.world "/Error/B/C" "phys03" Demo.boot _
             "error.json" "" [("status", PStr "fail")]).
    + reflexivity.
    + vm_compute. reflexivity.
    + discriminate.
    + reflexivity.
Defined.

(** *** curlGetFileFromURL: frame and outcomes *)

Section CurlFacts.
Context `{X : Externals}.

Lemma curl_runs_rest (url : string) (filename proxyfilename : option string)
    (logger : option Logger) (w w1 : W) (stdout stderr : string) (rc : Z) :
  downloaded url filename proxyfilename logger w (stdout, stderr, rc) w1 ->
  curlGetFileFromURL url filename proxyfilename logger w
  = curl_rest filename logger stdout stderr rc w1.
Proof. intros H. rewrite (curl_runs _ _ _ _ _ _ _ _ _ H). reflexivity. Qed.

Lemma curl_downloads (url : string) (filename proxyfilename : option string)
    (logger : option Logger) (w : W) :
  exists out w1, downloaded url filename proxyfilename logger w out w1.
Proof. unfold downloaded. apply execute_command_returns. Qed.

Lemma log_if_calls (logger : option Logger) (lvl : Z) (msg : string) (w : W) :
  exists w', log_if logger lvl msg w = (Return tt, w') /\
    calls w' = calls w /\ files w' = files w.
Proof. destruct logger; simpl; eexists; repeat split. Qed.

Ltac curl_cases filename logger w1 :=
  unfold curl_rest, bind, os_unlink, read_file, lift, ret, log_if, log_to;
  repeat match goal with
         | H : files w1 !! ?p = _ |- context [files w1 !! ?p] => rewrite H; simpl
         | |- context [match read_text ?b with _ => _ end] => destruct (read_text b); simpl
         | |- context [negb (?a =? ?b)] => destruct (a =? b) eqn:?; simpl
         | |- context [match python_int ?s with _ => _ end] => destruct (python_int s); simpl
         | |- context [match filename with _ => _ end] => destruct filename; simpl
         | |- context [match files w1 !! ?p with _ => _ end] =>
             destruct (files w1 !! p) eqn:?; simpl
         | |- context [match logger with _ => _ end] => destruct logger; simpl
         end.

(** The rest never runs a command and touches no file but the destination. *)
Lemma curl_rest_frame (filename : option string) (logger : option Logger)
    (stdout stderr : string) (rc : Z) (w1 : W) :
  calls (curl_rest filename logger stdout stderr rc w1).2 = calls w1 /\
  forall p, filename <> Some p ->
    files (curl_rest filename logger stdout stderr rc w1).2 !! p = files w1 !! p.
Proof.
  split.
  - curl_cases filename logger w1; reflexivity.
  - intros p Hp. curl_cases filename logger w1; try reflexivity;
      apply lookup_delete_ne; congruence.
Qed.

End CurlFacts.

(** X5. [curlGetFileFromURL] runs one command and one only, whatever the
    outcome: the download command built from the certificate directory, the
    proxy, the destination and the URL.  It never retries and runs nothing
    else. *)
Theorem curl_runs_one_command `{X : Externals} (url : string)
    (filename proxyfilename : option string) (logger : option Logger) (w : W) :
  calls (curlGetFileFromURL url filename proxyfilename logger w).2
  = (calls w ++ [downloadCommand (capath_of w) url filename proxyfilename])%list.
Proof.
  destruct (curl_downloads url filename proxyfilename logger w) as ([[so se] rc] & w1 & Hd).
  rewrite (curl_runs_rest _ _ _ _ _ _ _ _ _ Hd).
  destruct (curl_rest_frame filename logger so se rc w1) as [-> _].
  unfold downloaded in Hd. apply calls_after in Hd. rewrite Hd.
  destruct (log_if_calls logger DEBUG
              ("Will execute:" ++ NL ++ downloadCommand (capath_of w) url filename proxyfilename)
              w) as (w' & Hl & Hc & _).
  rewrite Hl. simpl. rewrite Hc. reflexivity.
Qed.

(** X6. Whatever the outcome, [curlGetFileFromURL] itself leaves every file
    other than the destination as the download command left it. *)
Theorem curl_keeps_other_files `{X : Externals} (url : string)
    (filename proxyfilename : option string) (logger : option Logger) (w w1 : W)
    (out : Completed) (p : string) :
  downloaded url filename proxyfilename logger w out w1 ->
  filename <> Some p ->
  files (curlGetFileFromURL url filename proxyfilename logger w).2 !! p = files w1 !! p.
Proof.
  destruct out as [[so se] rc]. intros Hd Hp.
  rewrite (curl_runs_rest _ _ _ _ _ _ _ _ _ Hd).
  apply curl_rest_frame. exact Hp.
Qed.

Lemma curl_keeps_other_files_witness :
  files (@curlGetFileFromURL Cases.world "https://example.org/missing" (Some "out.bin")
           (Some Demo.x509) None Demo.boot).2 !! "curl.log" = Some "trace".
Proof.
  rewrite (@curl_keeps_other_files Cases.world "https://example.org/missing" (Some "out.bin")
             (Some Demo.x509) None Demo.boot
             (set_calls [Cases.curl_to (Some "out.bin") "https://example.org/missing"]
                (set_files {[ "out.bin" := "Not Found"; "curl.log" := "trace" ]} Demo.boot))
             ("404", "", 0) "curl.log").
  - vm_compute. reflexivity.
  - vm_compute. reflexivity.
  - discriminate.
Defined.

(** X7. What a returned status tells the caller.  When
    [curlGetFileFromURL] returns, the value is 503 for a command that exited
    nonzero and otherwise the status curl printed; whenever it is not 200 a
    file was at the destination after the download and is no longer there;
    when it is 200 the files are as the download left them. *)
Theorem curl_returned_status `{X : Externals} (url : string)
    (filename proxyfilename : option string) (logger : option Logger) (w w1 w2 : W)
    (stdout stderr : string) (rc code : Z) :
  downloaded url filename proxyfilename logger w (stdout, stderr, rc) w1 ->
  curlGetFileFromURL url filename proxyfilename logger w = (Return code, w2) ->
  (rc <> 0 /\ code = 503 \/ rc = 0 /\ python_int stdout = Some code) /\
  (code <> 200 ->
     exists f body, filename = Some f /\ files w1 !! f = Some body /\ files w2 !! f = None) /\
  (code = 200 -> files w2 = files w1).
Proof.
  intros Hd. rewrite (curl_runs_rest _ _ _ _ _ _ _ _ _ Hd). clear Hd.
  unfold curl_rest, bind, os_unlink, read_file, lift, log_if, log_to, ret.
  destruct (rc =? 0) eqn:Hrc; simpl.
  - apply Z.eqb_eq in Hrc.
    destruct (python_int stdout) as [c|] eqn:Hint; simpl; [|discriminate].
    destruct (c =? 200) eqn:Hc; simpl.
    + apply Z.eqb_eq in Hc. subst c.
      destruct logger; simpl; intros [= <- <-];
        (split; [right; auto | split; [intros Hne; contradiction | reflexivity]]).
    + apply Z.eqb_neq in Hc.
      destruct filename as [f|]; simpl; [|discriminate].
      destruct (files w1 !! f) as [body|] eqn:Hf; simpl; rewrite ?Hf; simpl; [|discriminate].
      destruct (read_text body) as [text|]; simpl; rewrite ?Hf; simpl; [|discriminate].
      destruct logger; simpl; intros [= <- <-];
        (split; [right; auto
                | split; [intros _; exists f, body; repeat split; auto; apply lookup_delete_eq
                         | intros Habs; contradiction]]).
  - apply Z.eqb_neq in Hrc.
    destruct filename as [f|]; simpl; [|discriminate].
    destruct (files w1 !! f) as [body|] eqn:Hf; simpl; rewrite ?Hf; simpl; [|discriminate].
    destruct logger; simpl; intros [= <- <-];
      (split; [left; auto
              | split; [intros _; exists f, body; repeat split; auto; apply lookup_delete_eq
                       | discriminate]]).
Qed.

Lemma curl_returned_status_witness :
  (0 <> 0 /\ 404 = 503 \/ 0 = 0 /\ @python_int Demo.world "404" = Some 404) /\
  (404 <> 200 ->
     exists f body, Some "out.bin" = Some f /\
       files (set_calls [Demo.curl "https://example.org/missing"]
                (set_files {[ "out.bin" := "Not Found" ]} Demo.boot)) !! f = Some body /\
       files (set_calls [Demo.curl "https://example.org/missing"]
                (set_files ∅ Demo.boot)) !! f = None) /\
  (404 = 200 ->
     files (set_calls [Demo.curl "https://example.org/missing"] (set_files ∅ Demo.boot))
     = files (set_calls [Demo.curl "https://example.org/missing"]
                (set_files {[ "out.bin" := "Not Found" ]} Demo.boot))).
Proof.
  apply (@curl_returned_status Demo.world "https://example.org/missing" (Some "out.bin")
           (Some Demo.x509) None Demo.boot _ _ "404" "" 0 404).
  - vm_compute. reflexivity.
  - vm_compute. reflexivity.
Defined.

(** X8. When the command exits with zero but what it printed is no integer,
    the [ValueError] of [int] leaves the function at once: the destination
    file stays as the download left it and no closing record is logged. *)
Theorem curl_status_not_a_number `{X : Externals} (url : string)
    (filename proxyfilename : option string) (logger : option Logger) (w w1 : W)
    (stdout stderr : string) :
  downloaded url filename proxyfilename logger w (stdout, stderr, 0) w1 ->
  python_int stdout = None ->
  curlGetFileFromURL url filename proxyfilename logger w = (Raise ValueError, w1).
Proof.
  intros Hd Hint. rewrite (curl_runs_rest _ _ _ _ _ _ _ _ _ Hd).
  unfold curl_rest, bind, lift. simpl. rewrite Hint. reflexivity.
Qed.

Lemma curl_status_not_a_number_witness :
  @curlGetFileFromURL Cases.world "https://example.org/odd" (Some "out.bin")
    (Some Demo.x509) None Demo.boot
  = (Raise ValueError,
     set_calls [Cases.curl_to (Some "out.bin") "https://example.org/odd"]
       (set_files {[ "out.bin" := "payload" ]} Demo.boot)).
Proof.
  apply (@curl_status_not_a_number Cases.world "https://example.org/odd" (Some "out.bin")
           (Some Demo.x509) None Demo.boot _ "n/a" "").
  - vm_compute. reflexivity.
  - reflexivity.
Defined.

(** X9. With [filename] left at its default [None], curl is told to write
    to a file named [None], and every outcome other than a status of 200
    ends in the [TypeError] of [os.unlink(None)] or [open(None)], in the
    world the download left: no status is returned and what curl wrote
    stays on disk. *)
Theorem curl_without_filename `{X : Externals} (url : string)
    (proxyfilename : option string) (logger : option Logger) (w w1 : W)
    (stdout stderr : string) (rc : Z) :
  downloaded url None proxyfilename logger w (stdout, stderr, rc) w1 ->
  (rc <> 0 \/ exists code, python_int stdout = Some code /\ code <> 200) ->
  curlGetFileFromURL url None proxyfilename logger w = (Raise TypeError, w1) /\
  includes " -o None -w " (downloadCommand (capath_of w) url None proxyfilename).
Proof.
  intros Hd Hbad. split.
  - rewrite (curl_runs_rest _ _ _ _ _ _ _ _ _ Hd).
    unfold curl_rest, bind, os_unlink, read_file, lift.
    destruct (rc =? 0) eqn:Hrc; simpl; [|reflexivity].
    apply Z.eqb_eq in Hrc.
    destruct Hbad as [Hne | (code & Hint & Hcode)]; [contradiction|].
    rewrite Hint. apply Z.eqb_neq in Hcode. rewrite Hcode. reflexivity.
  - unfold downloadCommand.
    exists ("curl -sS --capath " ++ capath_of w ++ " --cert " ++ str_of_opt proxyfilename
            ++ " --key " ++ str_of_opt proxyfilename),
           ("%" ++ DQ ++ "{http_code}" ++ DQ ++ " " ++ DQ ++ url ++ DQ).
    rewrite !append_assoc. reflexivity.
Qed.

Lemma curl_without_filename_witness :
  @curlGetFileFromURL Cases.world "https://example.org/missing" None
    (Some Demo.x509) None Demo.boot
  = (Raise TypeError,
     set_calls [Cases.curl_to None "https://example.org/missing"]
       (set_files {[ "None" := "Not Found" ]} Demo.boot)) /\
  includes " -o None -w "
    (downloadCommand (@capath_of Cases.world Demo.boot) "https://example.org/missing" None
       (Some Demo.x509)).
Proof.
  apply (@curl_without_filename Cases.world "https://example.org/missing"
           (Some Demo.x509) None Demo.boot _ "404" "" 0).
  - vm_compute. reflexivity.
  - right. exists 404. split; [reflexivity | discriminate].
Defined.

Lemma curl_failed_file_present_witness :
  exists w2,
    @curlGetFileFromURL Demo.world "https://example.org/partial" (Some "out.bin")
      (Some Demo.x509) None Demo.boot = (Return 503, w2) /\
    files w2 = delete "out.bin"
                 (files (set_calls [Demo.curl "https://example.org/partial"]
                           (set_files {[ "out.bin" := "pay" ]} Demo.boot))) /\
    files w2 !! "out.bin" = None.
Proof.
  apply (@curl_failed_file_present Demo.world "https://example.org/partial" "out.bin"
           (Some Demo.x509) None Demo.boot _
           ("000", "curl: (28) Operation timed out", 28) "pay").
  - vm_compute. reflexivity.
  - discriminate.
  - reflexivity.
Defined.

Lemma curl_refused_file_present_witness :
  exists w2,
    @curlGetFileFromURL Demo.world "https://example.org/missing" (Some "out.bin")
      (Some Demo.x509) (Some "crab") Demo.boot = (Return 404, w2) /\
    files w2 !! "out.bin" = None /\
    logged w2
    = (logged (@execute_command Demo.world (Demo.curl "https://example.org/missing")
                 (Some "crab")
                 (@log_if Demo.world (Some "crab") DEBUG
                    ("Will execute:" ++ NL ++ Demo.curl "https://example.org/missing")
                    Demo.boot).2).2
       ++ [("crab", DEBUG,
            ("exitcode: 0" ++ NL ++ "stdout: " ++ "404" ++ NL
             ++ "stderr: " ++ "" ++ NL ++ "error details: " ++ "Not Found")%string)])%list.
Proof.
  apply (@curl_refused_file_present Demo.world "https://example.org/missing" "out.bin"
           (Some Demo.x509) (Some "crab") Demo.boot _ "404" "" "Not Found" "Not Found" 404).
  - vm_compute. reflexivity.
  - reflexivity.
  - discriminate.
  - reflexivity.
  - reflexivity.
Defined.

Lemma curl_accepted_witness :
  exists w2,
    @curlGetFileFromURL Demo.world "https://example.org/f" (Some "out.bin")
      (Some Demo.x509) None Demo.boot = (Return 200, w2) /\
    files w2 = files (set_calls [Demo.curl "https://example.org/f"]
                        (set_files {[ "out.bin" := "payload" ]} Demo.boot)).
Proof.
  apply (@curl_accepted Demo.world "https://example.org/f" (Some "out.bin")
           (Some Demo.x509) None Demo.boot _ "200" "").
  - vm_compute. reflexivity.
  - reflexivity.
Defined.

(** *** getColumn: edges *)

Section ColumnEdges.

(** [getColumn] on a structure with both lists, at the first position of
    the name. *)
Lemma getColumn_at (d desc : pyval) (cols vals : list pyval) (name : string) (i : nat) :
  getitem_str d "desc" = Return desc ->
  getitem_str desc "columns" = Return (PList cols) ->
  getitem_str d "result" = Return (PList vals) ->
  first_position name cols i ->
  getColumn d name
  = match nth_error vals i with
    | Some v => if eq_str v "None" then Return PNone else Return v
    | None => Raise IndexError
    end.
Proof.
  intros Hdesc Hcols Hres Hpos. apply find_index_first in Hpos.
  unfold getColumn. rewrite Hdesc. simpl. rewrite Hcols. simpl. rewrite Hpos. simpl.
  rewrite Hres. simpl. rewrite seq_at_nat. destruct (nth_error vals i); reflexivity.
Qed.

End ColumnEdges.

(** X13. [getColumn] never hands back the string ["None"], whatever the
    structure and the column asked for. *)
Theorem getColumn_never_returns_None_string (d : pyval) (name : string) (v : pyval) :
  getColumn d name = Return v -> v <> PStr "None".
Proof.
  unfold getColumn, and_then.
  destruct (getitem_str d "desc") as [desc|]; [|discriminate].
  destruct (getitem_str desc "columns") as [columns|]; [|discriminate].
  destruct (index columns name) as [i|]; [|discriminate].
  destruct (getitem_str d "result") as [results|]; [|discriminate].
  destruct (getitem_int results (Z.of_nat i)) as [value|]; [|discriminate].
  destruct (eq_str value "None") eqn:E; intros [= <-]; [discriminate|].
  intros ->. discriminate E.
Qed.

Lemma getColumn_never_returns_None_string_witness :
  getColumn Demo.status_ok "tm_task_status" = Return PNone /\ PNone <> PStr "None".
Proof.
  split; [reflexivity|].
  apply (getColumn_never_returns_None_string Demo.status_ok "tm_task_status" PNone).
  reflexivity.
Defined.

(** X14. When [result] is shorter than the position of the column in
    [desc.columns], [getColumn] raises [IndexError]: a column that is named
    but has no cell is an error, not an absent value. *)
Theorem getColumn_short_result (d desc : pyval) (cols vals : list pyval) (name : string)
    (i : nat) :
  getitem_str d "desc" = Return desc ->
  getitem_str desc "columns" = Return (PList cols) ->
  getitem_str d "result" = Return (PList vals) ->
  first_position name cols i ->
  (length vals <= i)%nat ->
  getColumn d name = Raise IndexError.
Proof.
  intros Hdesc Hcols Hres Hpos Hlen.
  rewrite (getColumn_at d desc cols vals name i Hdesc Hcols Hres Hpos).
  apply nth_error_None in Hlen. rewrite Hlen. reflexivity.
Qed.

Lemma getColumn_short_result_witness :
  getColumn (PDict [("desc", PDict [("columns", PList [PStr "a"; PStr "b"])]);
                    ("result", PList [PStr "x"])]) "b"
  = Raise IndexError.
Proof.
  apply (getColumn_short_result _ (PDict [("columns", PList [PStr "a"; PStr "b"])])
           [PStr "a"; PStr "b"] [PStr "x"] "b" 1).
  - reflexivity.
  - reflexivity.
  - reflexivity.
  - split; [reflexivity|]. intros [|j] Hj; [discriminate | lia].
  - simpl. lia.
Defined.

(** X15. [getColumn] answers [None] exactly when the cell of the column
    holds [None] or the string ["None"]: the two are not told apart. *)
Theorem getColumn_None_iff (d desc : pyval) (cols vals : list pyval) (name : string)
    (i : nat) (v : pyval) :
  getitem_str d "desc" = Return desc ->
  getitem_str desc "columns" = Return (PList cols) ->
  getitem_str d "result" = Return (PList vals) ->
  first_position name cols i ->
  nth_error vals i = Some v ->
  (getColumn d name = Return PNone <-> v = PNone \/ v = PStr "None").
Proof.
  intros Hdesc Hcols Hres Hpos Hv.
  rewrite (getColumn_at d desc cols vals name i Hdesc Hcols Hres Hpos), Hv.
  destruct (eq_str v "None") eqn:E.
  - apply eq_str_true in E. split; [intros _; right; exact E | reflexivity].
  - split.
    + intros [= ->]. left. reflexivity.
    + intros [-> | ->]; [reflexivity | discriminate E].
Qed.

Lemma getColumn_None_iff_witness :
  getColumn Demo.status_ok "tm_task_status" = Return PNone
  <-> PStr "None" = PNone \/ PStr "None" = PStr "None".
Proof.
  apply (getColumn_None_iff Demo.status_ok
           (PDict [("columns", PList [PStr "tm_taskname"; PStr "tm_task_status"])])
           [PStr "tm_taskname"; PStr "tm_task_status"] [PStr "task_1"; PStr "None"]
           "tm_task_status" 1).
  - reflexivity.
  - reflexivity.
  - reflexivity.
  - split; [reflexivity|]. intros [|j] Hj; [discriminate | lia].
  - reflexivity.
Defined.

(** *** setConsoleLogLevel and getMutedStatusInfo: the handlers *)

Section HandlerFacts.
Context `{X : Externals}.

Lemma setConsoleLogLevel_world (lvl : Z) (w : W) :
  setConsoleLogLevel lvl w
  = (Return tt, set_levels lvl (option_map (map (fun _ => lvl)) (crab3_all w)) w).
Proof.
  unfold setConsoleLogLevel, bind, setConsoleLogLevelVar. simpl.
  destruct w as [en fs lv [hs|] lg cs since out]; reflexivity.
Qed.

End HandlerFacts.

(** X16. Setting the console level twice is setting it to the last level:
    after [setConsoleLogLevel a] then [setConsoleLogLevel b] the world is the
    one [setConsoleLogLevel b] alone gives, every handler of ['CRAB3.all']
    included; and [getConsoleLogLevel] then reads [b]. *)
Theorem setConsoleLogLevel_last_wins `{X : Externals} (a b : Z) (w : W) :
  bind (setConsoleLogLevel a) (fun _ => setConsoleLogLevel b) w = setConsoleLogLevel b w /\
  bind (setConsoleLogLevel b) (fun _ => getConsoleLogLevel) w
  = (Return b, (setConsoleLogLevel b w).2).
Proof.
  unfold bind. split.
  - rewrite (setConsoleLogLevel_world a w). cbv beta iota.
    rewrite !setConsoleLogLevel_world.
    destruct w as [en fs lv [hs|] lg cs since out]; simpl; [|reflexivity].
    unfold set_levels. simpl. rewrite map_map. reflexivity.
  - rewrite (setConsoleLogLevel_world b w). reflexivity.
Qed.

(** X17. After a normal return of [getMutedStatusInfo] every handler of
    ['CRAB3.all'] is at the console level saved before muting, whatever its
    own level was before: the handlers are not given back their levels one
    by one.  During the call of the status command they were all at the mute
    level. *)
Theorem muted_status_levels_handlers `{X : Externals} (logger : Logger) (w0 w1 w2 : W)
    (cmdobj : StatusCmd) (statusDict statusFailureMsg : pyval) (hs : list Z) :
  status_new logger w0 = (Return cmdobj, w1) ->
  status_call cmdobj (muted w1) = (Return statusDict, w2) ->
  getitem_str statusDict "statusFailureMsg" = Return statusFailureMsg ->
  crab3_all w2 = Some hs ->
  crab3_all (getMutedStatusInfo logger w0).2
  = Some (map (fun _ => CONSOLE_LOGLEVEL w1) hs) /\
  crab3_all (muted w1) = option_map (map (fun _ => LOGLEVEL_MUTE)) (crab3_all w1).
Proof.
  intros Hnew Hcall Hmsg Hhs. split.
  - rewrite (status_called logger w0 w1 cmdobj Hnew).
    unfold bind at 1. rewrite Hcall.
    unfold bind at 1. rewrite setConsoleLogLevel_world.
    unfold bind at 1. unfold lift. rewrite Hmsg.
    unfold bind, log_to, ret. destruct (truthy statusFailureMsg); simpl; rewrite Hhs;
      reflexivity.
  - unfold muted. rewrite setConsoleLogLevel_world. reflexivity.
Qed.

Lemma muted_status_levels_handlers_witness :
  crab3_all (@getMutedStatusInfo Demo.world_failing "crab" Demo.boot).2
  = Some (map (fun _ => CONSOLE_LOGLEVEL Demo.boot) [60; 60]) /\
  crab3_all (@muted Demo.world_failing Demo.boot)
  = option_map (map (fun _ => 60)) (crab3_all Demo.boot).
Proof.
  apply (@muted_status_levels_handlers Demo.world_failing "crab" Demo.boot Demo.boot
           (@muted Demo.world_failing Demo.boot) tt Demo.status_failed
           (PStr "Cannot find status") [60; 60]).
  - reflexivity.
  - reflexivity.
  - reflexivity.
  - reflexivity.
Defined.

(** X18. When the status command returns a structure without the key
    [statusFailureMsg] (or one that is no dictionary), the subscript raises
    after the console level has been put back: the error leaves
    [getMutedStatusInfo] with the console at the saved level and with
    nothing logged by the function. *)
Theorem status_without_failure_key `{X : Externals} (logger : Logger) (w0 w1 w2 : W)
    (cmdobj : StatusCmd) (statusDict : pyval) (e : exn) :
  status_new logger w0 = (Return cmdobj, w1) ->
  status_call cmdobj (muted w1) = (Return statusDict, w2) ->
  getitem_str statusDict "statusFailureMsg" = Raise e ->
  exists w3,
    getMutedStatusInfo logger w0 = (Raise e, w3) /\
    (e = KeyError \/ e = TypeError) /\
    CONSOLE_LOGLEVEL w3 = CONSOLE_LOGLEVEL w1 /\
    logged w3 = logged w2.
Proof.
  intros Hnew Hcall Hmsg.
  rewrite (status_called logger w0 w1 cmdobj Hnew).
  unfold bind at 1. rewrite Hcall.
  unfold bind at 1. rewrite setConsoleLogLevel_world.
  unfold bind at 1. unfold lift. rewrite Hmsg.
  eexists. split; [reflexivity|]. split; [|split; reflexivity].
  destruct statusDict as [| | | | |kvs]; simpl in Hmsg;
    try (injection Hmsg as <-; right; reflexivity).
  destruct (dict_get kvs "statusFailureMsg"); [discriminate|].
  injection Hmsg as <-. left. reflexivity.
Qed.

Lemma status_without_failure_key_witness :
  exists w3,
    @getMutedStatusInfo Cases.world "crab" Demo.boot = (Raise KeyError, w3) /\
    (KeyError = KeyError \/ KeyError = TypeError) /\
    CONSOLE_LOGLEVEL w3 = CONSOLE_LOGLEVEL Demo.boot /\
    logged w3 = logged (@muted Cases.world Demo.boot).
Proof.
  apply (@status_without_failure_key Cases.world "crab" Demo.boot Demo.boot
           (@muted Cases.world Demo.boot) tt (PDict [("result", PList [])]) KeyError).
  - reflexivity.
  - reflexivity.
  - reflexivity.
Defined.

(** *** getUsernameFromCRIC: commands and diagnostics *)

Section CricFacts.
Context `{X : Externals}.

(** The function, given the credential it settled on and what its two
    commands hand back. *)
Lemma cric_run (proxyFileName pf : option string) (w w1 w2 w3 : W)
    (stdout stderr username stderr' : string) (rc rc' : Z) :
  located proxyFileName w = (pf, w1) ->
  execute_command (cric_queryCmd (capath_of w) (str_of_opt pf)) None w1
    = (Return (stdout, stderr, rc), w2) ->
  execute_command (cric_parseCmd stdout) None w2 = (Return (username, stderr', rc'), w3) ->
  getUsernameFromCRIC proxyFileName w
  = if opt_falsy pf then (Raise (UsernameException "Can't find user proxy file"), w1)
    else if failed rc stdout
         then (Raise (UsernameException
                        (cric_contact_msg (cric_queryCmd (capath_of w) (str_of_opt pf))
                           stdout stderr)), w2)
         else if String.eqb username "null" || str_empty username
              then (Raise (UsernameException
                             (cric_parse_msg (cric_queryCmd (capath_of w) (str_of_opt pf))
                                stdout username)), w3)
              else (Return username, w3).
Proof.
  intros Hloc Hquery Hparse.
  unfold getUsernameFromCRIC. unfold bind at 1. unfold environ_or. fold (capath_of w).
  unfold bind at 1. unfold located in Hloc.
  destruct (opt_falsy proxyFileName);
    [cbv beta; rewrite Hloc | injection Hloc as Hp Hw; rewrite Hp, Hw in *; unfold ret at 1];
    cbv beta iota;
    (destruct (opt_falsy pf); [reflexivity|]);
    unfold bind at 1; rewrite Hquery;
    (destruct (failed rc stdout); [reflexivity|]);
    unfold bind at 1; rewrite Hparse;
    destruct (String.eqb username "null" || str_empty username); reflexivity.
Qed.

End CricFacts.

(** X19. The commands [getUsernameFromCRIC] runs: none when no credential
    file is located, the query alone when it exits nonzero or prints
    nothing, and the query followed by the parsing pipeline otherwise.  The
    parsing pipeline never runs on a failed query and nothing is run
    twice. *)
Theorem cric_command_log `{X : Externals} (proxyFileName pf : option string)
    (w w1 w2 w3 : W) (stdout stderr username stderr' : string) (rc rc' : Z) :
  located proxyFileName w = (pf, w1) ->
  execute_command (cric_queryCmd (capath_of w) (str_of_opt pf)) None w1
    = (Return (stdout, stderr, rc), w2) ->
  execute_command (cric_parseCmd stdout) None w2 = (Return (username, stderr', rc'), w3) ->
  calls (getUsernameFromCRIC proxyFileName w).2
  = (calls w1 ++ cric_commands (capath_of w) pf rc stdout)%list.
Proof.
  intros Hloc Hquery Hparse.
  rewrite (cric_run _ _ _ _ _ _ _ _ _ _ _ _ Hloc Hquery Hparse).
  apply calls_after in Hquery. apply calls_after in Hparse.
  unfold cric_commands.
  destruct (opt_falsy pf); [simpl; rewrite app_nil_r; reflexivity|].
  destruct (failed rc stdout); [exact Hquery|].
  assert (Hc : calls w3 = (calls w1 ++ [cric_queryCmd (capath_of w) (str_of_opt pf);
                                        cric_parseCmd stdout])%list).
  { rewrite Hparse, Hquery, <- app_assoc. reflexivity. }
  destruct (String.eqb username "null" || str_empty username); exact Hc.
Qed.

Lemma cric_command_log_witness :
  calls (@getUsernameFromCRIC Cases.world (Some Demo.x509) Demo.boot).2
  = (calls Demo.boot
     ++ cric_commands Demo.certs (Some Demo.x509) 35 "")%list.
Proof.
  apply (@cric_command_log Cases.world (Some Demo.x509) (Some Demo.x509) Demo.boot Demo.boot
           (set_calls [cric_queryCmd Demo.certs Demo.x509] Demo.boot)
           (set_calls [cric_queryCmd Demo.certs Demo.x509; cric_parseCmd ""] Demo.boot)
           "" "curl: (35) SSL connect error" "" "command not found" 35 127).
  - reflexivity.
  - vm_compute. reflexivity.
  - vm_compute. reflexivity.
Defined.

(** X20. Whenever [getUsernameFromCRIC] raises after a credential file was
    located, the message of the [UsernameException] contains the query
    command as it was run and the stdout of the query with six spaces put
    after each of its newlines, be it the query or the parsed name that
    failed. *)
Theorem cric_diagnostic_names_query `{X : Externals} (proxyFileName pf : option string)
    (w w1 w2 w3 : W) (stdout stderr username stderr' msg : string) (rc rc' : Z) :
  located proxyFileName w = (pf, w1) ->
  execute_command (cric_queryCmd (capath_of w) (str_of_opt pf)) None w1
    = (Return (stdout, stderr, rc), w2) ->
  execute_command (cric_parseCmd stdout) None w2 = (Return (username, stderr', rc'), w3) ->
  opt_falsy pf = false ->
  (getUsernameFromCRIC proxyFileName w).1 = Raise (UsernameException msg) ->
  includes (cric_queryCmd (capath_of w) (str_of_opt pf)) msg /\
  includes (indent "      " stdout) msg.
Proof.
  intros Hloc Hquery Hparse Hpf.
  rewrite (cric_run _ _ _ _ _ _ _ _ _ _ _ _ Hloc Hquery Hparse), Hpf.
  destruct (failed rc stdout).
  - simpl. intros [= <-]. unfold cric_contact_msg. split.
    + do 5 apply includes_app_r. apply includes_app_l, includes_self.
    + do 10 apply includes_app_r. apply includes_app_l, includes_self.
  - destruct (String.eqb username "null" || str_empty username); simpl; [|discriminate].
    intros [= <-]. unfold cric_parse_msg. split.
    + do 5 apply includes_app_r. apply includes_app_l, includes_self.
    + do 10 apply includes_app_r. apply includes_app_l, includes_self.
Qed.

Lemma cric_diagnostic_names_query_witness :
  includes (cric_queryCmd Demo.certs Demo.x509)
    (cric_contact_msg (cric_queryCmd Demo.certs Demo.x509) ""
       "curl: (35) SSL connect error") /\
  includes (indent "      " "")
    (cric_contact_msg (cric_queryCmd Demo.certs Demo.x509) ""
       "curl: (35) SSL connect error").
Proof.
  apply (@cric_diagnostic_names_query Cases.world (Some Demo.x509) (Some Demo.x509)
           Demo.boot Demo.boot
           (set_calls [cric_queryCmd Demo.certs Demo.x509] Demo.boot)
           (set_calls [cric_queryCmd Demo.certs Demo.x509; cric_parseCmd ""] Demo.boot)
           "" "curl: (35) SSL connect error" "" "command not found" _ 35 127).
  - reflexivity.
  - vm_compute. reflexivity.
  - vm_compute. reflexivity.
  - reflexivity.
  - vm_compute. reflexivity.
Defined.

(** *** getUsername: the two attempts *)

(** X21. When the quiet attempt yields a non-empty name, [getUsername]
    returns that name and makes no second attempt: after the wrapper's call
    it only logs the name at debug level.  The proxy file handed to the
    wrapper is the argument when given, else [X509_USER_PROXY] when set,
    else [/tmp/x509up_u<uid>]. *)
Theorem getUsername_first_attempt_suffices `{X : Externals}
    (wrapped : Logger -> string -> bool -> M (option string)) (getuid : Z) (RED : string)
    (proxyFile : option string) (logger : option Logger) (w w1 : W) (u : string) :
  let L := match logger with Some l => l | None => root_logger end in
  let path := if opt_falsy proxyFile then proxy_from_environ getuid w
              else str_of_opt proxyFile in
  wrapped L path true (set_logged (logged w ++ [(L, DEBUG, "Retrieving username ...")])%list w)
    = (Return (Some u), w1) ->
  u <> "" ->
  getUsername wrapped getuid RED proxyFile logger w
  = (Return (Some u), set_logged (logged w1 ++ [(L, DEBUG, ("username is " ++ u)%string)])%list w1).
Proof.
  intros L path Hfirst Hu. unfold path in Hfirst.
  unfold getUsername. fold L. unfold bind at 1. unfold log_to at 1.
  unfold bind at 1.
  destruct (opt_falsy proxyFile); cbv beta; unfold ret at 1; cbv beta iota;
    unfold bind at 1;
    [change (proxy_from_environ getuid
               (set_logged (logged w ++ [(L, DEBUG, "Retrieving username ...")])%list w))
       with (proxy_from_environ getuid w)|];
    rewrite Hfirst; simpl; rewrite (str_empty_false u Hu); reflexivity.
Qed.

Lemma getUsername_first_attempt_suffices_witness :
  @getUsername Cases.world (Cases.wrapped "/home/jdoe/proxy" "jdoe") 1000 "" None None
    Cases.boot_with_proxy
  = (Return (Some "jdoe"),
     set_logged [("root", DEBUG, "Retrieving username ...");
                 ("root", DEBUG, "Retrieving username from CRIC...");
                 ("root", DEBUG, "username is jdoe")] Cases.boot_with_proxy).
Proof.
  apply (@getUsername_first_attempt_suffices Cases.world
           (Cases.wrapped "/home/jdoe/proxy" "jdoe") 1000 "" None None
           Cases.boot_with_proxy
           (set_logged [("root", DEBUG, "Retrieving username ...");
                        ("root", DEBUG, "Retrieving username from CRIC...")]
              Cases.boot_with_proxy) "jdoe").
  - vm_compute. reflexivity.
  - discriminate.
Defined.

(** X22. When the quiet attempt yields no name ([None] or the empty
    string), [getUsername] logs one error record and hands back whatever
    the second, verbose attempt on the same proxy file gives, as it is: it
    raises nothing of its own, so a second attempt without a name makes it
    return no name. *)
Theorem getUsername_second_attempt_decides `{X : Externals}
    (wrapped : Logger -> string -> bool -> M (option string)) (getuid : Z) (RED : string)
    (proxyFile : option string) (logger : option Logger) (w w1 : W) (u1 : option string) :
  let L := match logger with Some l => l | None => root_logger end in
  let path := if opt_falsy proxyFile then proxy_from_environ getuid w
              else str_of_opt proxyFile in
  wrapped L path true (set_logged (logged w ++ [(L, DEBUG, "Retrieving username ...")])%list w)
    = (Return u1, w1) ->
  opt_falsy u1 = true ->
  getUsername wrapped getuid RED proxyFile logger w
  = wrapped L path false (set_logged (logged w1 ++ [(L, ERROR, unresolved_msg RED)])%list w1).
Proof.
  intros L path Hfirst Hu. unfold path in *.
  unfold getUsername. fold L. unfold bind at 1. unfold log_to at 1.
  unfold bind at 1.
  destruct (opt_falsy proxyFile); cbv beta; unfold ret at 1; cbv beta iota;
    unfold bind at 1;
    [change (proxy_from_environ getuid
               (set_logged (logged w ++ [(L, DEBUG, "Retrieving username ...")])%list w))
       with (proxy_from_environ getuid w)|];
    rewrite Hfirst, Hu; reflexivity.
Qed.

Lemma getUsername_second_attempt_decides_witness :
  @getUsername Cases.world (Cases.wrapped "/elsewhere" "jdoe") 1000 "" None (Some "crab")
    Demo.boot
  = (Return None,
     set_logged [("crab", DEBUG, "Retrieving username ...");
                 ("crab", DEBUG, "Retrieving username from CRIC...");
                 ("crab", ERROR, @unresolved_msg Cases.world "");
                 ("crab", 20, "Retrieving username from CRIC...")] Demo.boot).
Proof.
  rewrite (@getUsername_second_attempt_decides Cases.world
             (Cases.wrapped "/elsewhere" "jdoe") 1000 "" None (Some "crab") Demo.boot
             (set_logged [("crab", DEBUG, "Retrieving username ...");
                          ("crab", DEBUG, "Retrieving username from CRIC...")] Demo.boot)
             None).
  - vm_compute. reflexivity.
  - vm_compute. reflexivity.
  - reflexivity.
Defined.

(** *** getLumiListInValidFiles: the diagnostic of a silent command *)

Section SilentFacts.
Context `{X : Externals}.

(** The exception of a refused query, with its message spelled out. *)
Lemma refused_query_message (dataset dbsurl : string) (w0 w w' : W)
    (cmd stdout stderr : string) (rc : Z) :
  asks dataset dbsurl w0 cmd w ->
  refused cmd w (stdout, stderr, rc) w' ->
  getLumiListInValidFiles dataset dbsurl w0
  = (Raise (ClientException (complain_msg cmd stdout stderr rc)), w').
Proof.
  intros Hasks Href.
  destruct Hasks as [|w1 w2 entries before after file pairss Hfiles Hnames Hbefore].
  - rewrite first_stage. unfold bind at 1.
    rewrite (refused_then _ _ _ _ _ _
               (fun stdout => bind (loads stdout) (fun result =>
                  bind (lift (iter result)) (fun records => for_each records file_step [])))
               Href).
    reflexivity.
  - rewrite (after_files dataset dbsurl w0 w1 entries Hfiles), Hnames. unfold bind.
    rewrite (lumis_loop_stops dbsurl w1 w2 w' before after file pairss _ Hbefore
               (file_lumis_refused dbsurl _ file w2 w' stdout stderr rc Href)).
    reflexivity.
Qed.

End SilentFacts.

(** X23. A command that exits with zero and prints nothing, on stdout and
    on stderr, is taken as a failure like any other: the [ClientException]
    then reads [Failed executing <command>. Exitcode is 0] and nothing
    more, the sections for the two streams being left out when they are
    empty.
    Stated for an instance selector [dbsurl] without [%]. *)
Theorem silent_query_diagnostic `{X : Externals} (dataset dbsurl : string) (w0 w w' : W)
    (cmd : string) :
  no_conversion dbsurl ->
  asks dataset dbsurl w0 cmd w ->
  execute_command cmd None w = (Return ("", "", 0), w') ->
  getLumiListInValidFiles dataset dbsurl w0
  = (Raise (ClientException ("Failed executing " ++ cmd ++ ". Exitcode is 0")), w').
Proof.
  intros _ Hasks Hrun.
  rewrite (refused_query_message dataset dbsurl w0 w w' cmd "" "" 0 Hasks).
  - reflexivity.
  - split; [exact Hrun | right; reflexivity].
Qed.

Lemma silent_query_diagnostic_witness :
  @getLumiListInValidFiles Cases.world "/Silent/B/C" "phys03" Demo.boot
  = (Raise (ClientException
              ("Failed executing " ++ fileCmd "/Silent/B/C" "phys03" ++ ". Exitcode is 0")),
     set_calls [fileCmd "/Silent/B/C" "phys03"] Demo.boot).
Proof.
  apply (@silent_query_diagnostic Cases.world "/Silent/B/C" "phys03" Demo.boot Demo.boot).
  - reflexivity.
  - apply asks_files.
  - vm_compute. reflexivity.
Defined.

(** *** curlGetFileFromURL: a body that does not decode *)

(** X24. When the command succeeded with a status other than 200 and the
    file it left does not decode as text, the read raises
    [UnicodeDecodeError] before the file is removed: no status is returned,
    nothing more is logged and the file stays on disk. *)
Theorem curl_undecodable_body `{X : Externals} (url f : string)
    (proxyfilename : option string) (logger : option Logger) (w w1 : W)
    (stdout stderr bytes : string) (code : Z) :
  downloaded url (Some f) proxyfilename logger w (stdout, stderr, 0) w1 ->
  python_int stdout = Some code ->
  code <> 200 ->
  files w1 !! f = Some bytes ->
  read_text bytes = None ->
  curlGetFileFromURL url (Some f) proxyfilename logger w = (Raise UnicodeDecodeError, w1).
Proof.
  intros Hrun Hint Hcode Hfile Htext.
  rewrite (curl_runs_rest _ _ _ _ _ _ _ _ _ Hrun).
  apply Z.eqb_neq in Hcode.
  unfold curl_rest, bind, lift, read_file. simpl. rewrite Hint, Hcode. simpl.
  rewrite Hfile, Htext. reflexivity.
Qed.

Lemma curl_undecodable_body_witness :
  @curlGetFileFromURL Cases.world "https://example.org/binary" (Some "out.bin")
    (Some Demo.x509) None Demo.boot
  = (Raise UnicodeDecodeError,
     set_calls [Cases.curl_to (Some "out.bin") "https://example.org/binary"]
       (set_files {[ "out.bin" := String "255"%char "PNG" ]} Demo.boot)).
Proof.
  apply (@curl_undecodable_body Cases.world "https://example.org/binary" "out.bin"
           (Some Demo.x509) None Demo.boot _ "404" "" (String "255"%char "PNG") 404).
  - vm_compute. reflexivity.
  - reflexivity.
  - discriminate.
  - reflexivity.
  - reflexivity.
Defined.
